(** * python-bitpin: request building, response handling and token upkeep

    A shallow embedding of [bitpin/clients/core.py], [bitpin/clients/client.py]
    and [bitpin/clients/async_client.py].  Python objects are modelled as a small
    universe of JSON-like values, [**kwargs] as insertion-ordered dictionaries,
    and the two clients as one family of functions indexed by the transport
    variant: the bodies of [Client] and [AsyncClient] coincide up to [await],
    except for [_handle_response], which is embedded once per class. *)

From Stdlib Require Import String Ascii List ZArith Lia Bool DecimalString.
Import ListNotations.
Local Open Scope string_scope.
Local Open Scope Z_scope.

(** ** Python values *)

(** The values that flow through the clients: [None], booleans, integers,
    strings, lists and dictionaries keyed by strings ([DictStrAny]).  A
    dictionary keeps its insertion order, as Python's does.  A character of a
    string is a code point below 256.  Floating point numbers and tuples are
    outside the universe; values are trees, so two distinct keys never hold the
    very same mutable object. *)
#[warnings="-register-all"]
Inductive pyval : Type :=
| VNone : pyval
| VBool : bool -> pyval
| VInt : Z -> pyval
| VStr : string -> pyval
| VList : list pyval -> pyval
| VDict : list (string * pyval) -> pyval.

Definition dict : Type := list (string * pyval).

(** Exceptions raised by the modelled code.  [APIException] and
    [RequestException] come from [bitpin/exceptions.py]; the others are Python
    built-ins ([ConnectionError] stands for any error of the HTTP library). *)
Inductive exn : Type :=
| ValueError : string -> exn
| KeyError : string -> exn
| IndexError : exn
| TypeError : exn
| AttributeError : exn
| APIException : Z -> string -> exn
| RequestException : string -> exn
| ConnectionError : exn.

Inductive Result (A : Type) : Type :=
| Ok : A -> Result A
| Raise : exn -> Result A.
Arguments Ok {A} _.
Arguments Raise {A} _.

Definition rbind {A B} (r : Result A) (k : A -> Result B) : Result B :=
  match r with Ok a => k a | Raise e => Raise e end.

(** ** Dictionaries *)

Module Dict.

(** [d.get(k)] *)
Fixpoint get (d : dict) (k : string) : option pyval :=
  match d with
  | [] => None
  | (k', v) :: d' => if String.eqb k' k then Some v else get d' k
  end.

(** [k in d] *)
Definition mem (k : string) (d : dict) : bool :=
  match get d k with Some _ => true | None => false end.

(** [d[k] = v]: an existing key keeps its place, a new key goes last. *)
Fixpoint set (d : dict) (k : string) (v : pyval) : dict :=
  match d with
  | [] => [(k, v)]
  | (k', v') :: d' =>
      if String.eqb k' k then (k, v) :: d' else (k', v') :: set d' k v
  end.

(** [del d[k]] once the key is known to be present. *)
Definition del (d : dict) (k : string) : dict :=
  filter (fun kv => negb (String.eqb (fst kv) k)) d.

(** [d.update(e)] *)
Definition update (d e : dict) : dict :=
  fold_left (fun acc kv => set acc (fst kv) (snd kv)) e d.

Definition keys (d : dict) : list string := map fst d.

End Dict.

(** ** Built-in operations *)

(** Truth value of an object ([if x], [x or y]). *)
Definition truthy (v : pyval) : bool :=
  match v with
  | VNone => false
  | VBool b => b
  | VInt z => negb (z =? 0)
  | VStr s => negb (String.eqb s "")
  | VList l => match l with [] => false | _ => true end
  | VDict d => match d with [] => false | _ => true end
  end.

(** [x or y] *)
Definition py_or (x y : pyval) : pyval := if truthy x then x else y.

(** [str(n)] for an integer. *)
Definition str_int (z : Z) : string := NilZero.string_of_int (Z.to_int z).

(** [s.startswith(p)] *)
Fixpoint startswith (p s : string) : bool :=
  match p, s with
  | EmptyString, _ => true
  | String a p', String b s' => (Ascii.eqb a b && startswith p' s')%bool
  | String _ _, EmptyString => false
  end.

(** [s.lower()]: the capital letters below code point 256 are [A]-[Z] and
    192-222 without the multiplication sign 215. *)
Definition lower_ascii (c : ascii) : ascii :=
  let n := nat_of_ascii c in
  if (Nat.leb 65 n && Nat.leb n 90)%bool
     || (Nat.leb 192 n && Nat.leb n 222 && negb (Nat.eqb n 215))%bool
  then ascii_of_nat (n + 32) else c.

Fixpoint lower (s : string) : string :=
  match s with
  | EmptyString => EmptyString
  | String c s' => String (lower_ascii c) (lower s')
  end.

(** [s.split(sep)] for a one-character separator: the fields between the
    separators, empty fields included. *)
Fixpoint split_on (sep : ascii) (s : string) : list string :=
  match s with
  | EmptyString => [EmptyString]
  | String c s' =>
      if Ascii.eqb c sep then EmptyString :: split_on sep s'
      else match split_on sep s' with
           | [] => [String c EmptyString]
           | f :: fs => String c f :: fs
           end
  end.

(** [l[-2]], raising [IndexError] on fewer than two items. *)
Definition last_but_one {A} (l : list A) : Result A :=
  match rev l with
  | _ :: x :: _ => Ok x
  | _ => Raise IndexError
  end.

(** [sep.join(l)] *)
Fixpoint join (sep : string) (l : list string) : string :=
  match l with
  | [] => ""
  | [x] => x
  | x :: l' => x ++ sep ++ join sep l'
  end.

(** The one-character strings of [s], which is what iterating a [str] yields. *)
Fixpoint chars (s : string) : list string :=
  match s with
  | EmptyString => []
  | String c s' => String c EmptyString :: chars s'
  end.

(** [v[i]] for a literal index [i >= 0]. *)
Definition getitem_int (v : pyval) (i : nat) : Result pyval :=
  match v with
  | VStr s =>
      match nth_error (chars s) i with
      | Some c => Ok (VStr c)
      | None => Raise IndexError
      end
  | VList l =>
      match nth_error l i with Some x => Ok x | None => Raise IndexError end
  | VDict _ => Raise (KeyError (str_int (Z.of_nat i)))
  | _ => Raise TypeError
  end.

(** [v[k]] for a string key [k]. *)
Definition getitem_str (v : pyval) (k : string) : Result pyval :=
  match v with
  | VDict d =>
      match Dict.get d k with Some x => Ok x | None => Raise (KeyError k) end
  | _ => Raise TypeError
  end.

(** The items [for x in v] runs through: the keys of a dictionary, the items
    of a list, the characters of a string. *)
Definition py_iter (v : pyval) : Result (list pyval) :=
  match v with
  | VStr s => Ok (map VStr (chars s))
  | VList l => Ok l
  | VDict d => Ok (map VStr (Dict.keys d))
  | _ => Raise TypeError
  end.

(** A comprehension whose body may raise: the first exception ends it. *)
Fixpoint mapM {A B} (f : A -> Result B) (l : list A) : Result (list B) :=
  match l with
  | [] => Ok []
  | x :: l' => rbind (f x) (fun y => rbind (mapM f l') (fun ys => Ok (y :: ys)))
  end.

(** *** [repr] and [str] *)

Definition hex_digit (n : nat) : ascii :=
  if Nat.ltb n 10 then ascii_of_nat (48 + n) else ascii_of_nat (87 + n).

Definition contains_char (c : ascii) (s : string) : bool :=
  existsb (Ascii.eqb c) (list_ascii_of_string s).

(** The quote [repr] puts around a string: a double quote when the string
    holds a single quote and no double quote, a single quote otherwise. *)
Definition double_quote : ascii := ascii_of_nat 34.

Definition repr_quote (s : string) : ascii :=
  if (contains_char "'" s && negb (contains_char double_quote s))%bool
  then double_quote else "'"%char.

Definition repr_char (q c : ascii) : string :=
  let n := nat_of_ascii c in
  if (Ascii.eqb c q || Ascii.eqb c "\")%bool then String "\" (String c "")
  else if Nat.eqb n 9 then "\t"
  else if Nat.eqb n 10 then "\n"
  else if Nat.eqb n 13 then "\r"
  else if (Nat.ltb n 32 || Nat.eqb n 127
           || (Nat.leb 128 n && Nat.leb n 160) || Nat.eqb n 173)%bool
  then String "\" (String "x" (String (hex_digit (n / 16))
                                  (String (hex_digit (n mod 16)) "")))
  else String c "".

Definition repr_str (s : string) : string :=
  let q := repr_quote s in
  String q (String.concat "" (map (repr_char q) (list_ascii_of_string s)))
  ++ String q "".

(** [repr(v)] *)
Fixpoint repr (v : pyval) : string :=
  match v with
  | VNone => "None"
  | VBool true => "True"
  | VBool false => "False"
  | VInt z => str_int z
  | VStr s => repr_str s
  | VList l => "[" ++ join ", " (map repr l) ++ "]"
  | VDict d =>
      "{" ++ join ", " (map (fun '(k, x) => repr_str k ++ ": " ++ repr x) d)
      ++ "}"
  end.

(** [str(v)], also what an f-string field [{v}] prints. *)
Definition str (v : pyval) : string :=
  match v with VStr s => s | _ => repr v end.

(** ** The HTTP interface *)

(** [enums.RequestMethod]: the members the clients use.  Each member is a
    string, the name of the session method [getattr(self.session, method)]
    looks up and the literal [t.RequestMethods] lists for it. *)
Inductive RequestMethod : Type := GET | POST | PUT | DELETE.

Definition method_value (m : RequestMethod) : string :=
  match m with
  | GET => "get"
  | POST => "post"
  | PUT => "put"
  | DELETE => "delete"
  end.

(** What the handlers read from a response object of the HTTP library:
    the status, the body, the outcome of decoding the body as JSON ([None]
    when the decoder raises [ValueError]), and the request it answers: its
    verb as the library reports it, [request.path_url] (blocking library) and
    [request_info.url.parts] (non-blocking library). *)
Record Response : Type := {
  status_code : Z;
  text : string;
  json : option pyval;
  req_method : string;
  path_url : string;
  url_parts : list string
}.

(** The payload both handlers synthesize for a deletion. *)
Definition cancel_payload (id : string) : pyval :=
  VDict [("status", VStr "success"); ("id", VStr id)].

(** The tail shared by both handlers: [response.json()], a [ValueError] of
    the decoder becoming a [RequestException]. *)
Definition decode_json (response : Response) : Result pyval :=
  match json response with
  | Some v => Ok v
  | None => Raise (RequestException ("Invalid Response: " ++ text response))
  end.

Module Client.

(** [Client._handle_response] *)
Definition _handle_response (response : Response) : Result pyval :=
  if negb (startswith "2" (str_int (status_code response))) then
    if String.eqb (lower (req_method response)) (method_value DELETE) then
      rbind (last_but_one (split_on "/" (path_url response)))
            (fun id => Ok (cancel_payload id))
    else Raise (APIException (status_code response) (text response))
  else decode_json response.

End Client.

Module AsyncClient.

(** [AsyncClient._handle_response]; the [IndexError] of [parts[-2]] is not
    a [ValueError] and leaves the [try] block as it is. *)
Definition _handle_response (response : Response) : Result pyval :=
  if negb (startswith "2" (str_int (status_code response))) then
    Raise (APIException (status_code response) (text response))
  else if String.eqb (lower (req_method response)) (method_value DELETE) then
    rbind (last_but_one (url_parts response))
          (fun id => Ok (cancel_payload id))
  else decode_json response.

End AsyncClient.

(** The two transport variants. *)
Inductive variant : Type := Blocking | NonBlocking.

Definition _handle_response (v : variant) : Response -> Result pyval :=
  match v with
  | Blocking => Client._handle_response
  | NonBlocking => AsyncClient._handle_response
  end.

(** ** The client object *)

Record CoreClient : Type := {
  api_key : pyval;
  api_secret : pyval;
  access_token : pyval;
  refresh_token : pyval;
  _requests_params : option dict;
  _background_relogin : bool;
  _background_relogin_interval : Z;
  _background_refresh_token : bool;
  _background_refresh_token_interval : Z
}.

Definition set_access_token (self : CoreClient) (v : pyval) : CoreClient :=
  {| api_key := api_key self; api_secret := api_secret self;
     access_token := v; refresh_token := refresh_token self;
     _requests_params := _requests_params self;
     _background_relogin := _background_relogin self;
     _background_relogin_interval := _background_relogin_interval self;
     _background_refresh_token := _background_refresh_token self;
     _background_refresh_token_interval :=
       _background_refresh_token_interval self |}.

Definition set_refresh_token (self : CoreClient) (v : pyval) : CoreClient :=
  {| api_key := api_key self; api_secret := api_secret self;
     access_token := access_token self; refresh_token := v;
     _requests_params := _requests_params self;
     _background_relogin := _background_relogin self;
     _background_relogin_interval := _background_relogin_interval self;
     _background_refresh_token := _background_refresh_token self;
     _background_refresh_token_interval :=
       _background_refresh_token_interval self |}.

Definition set_requests_params (self : CoreClient) (d : option dict)
  : CoreClient :=
  {| api_key := api_key self; api_secret := api_secret self;
     access_token := access_token self; refresh_token := refresh_token self;
     _requests_params := d;
     _background_relogin := _background_relogin self;
     _background_relogin_interval := _background_relogin_interval self;
     _background_refresh_token := _background_refresh_token self;
     _background_refresh_token_interval :=
       _background_refresh_token_interval self |}.

(** Class constants of [CoreClient]. *)
Definition API_URL : string := "https://api.bitpin.ir/api".
Definition PUBLIC_API_VERSION_1 : string := "v1".
Definition PUBLIC_API_VERSION_2 : string := "v2".
Definition REQUEST_TIMEOUT : pyval := VInt 10.
Definition LOGIN_URL : string := "usr/authenticate/".
Definition REFRESH_TOKEN_URL : string := "usr/refresh_token/".
Definition CURRENCIES_LIST_URL : string := "mkt/currencies/".
Definition ORDERS_URL : string := "odr/orders/".
Definition BULK_ORDER_URL : string := "odr/orders/bulk/".

(** [CoreClient._create_api_uri] *)
Definition _create_api_uri (path : string) (version : pyval) : string :=
  API_URL ++ "/" ++ str version ++ "/" ++ path.

(** ** The request builder: [CoreClient._get_request_kwargs] *)

(** The state of the function after its lines 100-106: the options, the
    object the local [data] names as it then is, and the per-call
    [requests_params] mapping that was merged, if any. *)
Record merged : Type := {
  m_kwargs : dict;
  m_data : pyval;
  m_nested : option dict
}.

(** Lines 100-106.  [data["requests_params"]] is a mapping, as
    [OptionalDictStrAny] says; any other object is rejected at
    [kwargs.update], whereas Python would also read an iterable of pairs.
    When the merged mapping has a ["data"] entry of its own, [kwargs["data"]]
    is that entry by the time [del] runs, and the deletion happens inside
    it. *)
Definition merge_per_call (kwargs : dict) : Result merged :=
  let data :=
    match Dict.get kwargs "data" with Some v => v | None => VNone end in
  let untouched := {| m_kwargs := kwargs; m_data := data; m_nested := None |} in
  match data with
  | VDict dd =>
      if truthy data then
        match Dict.get dd "requests_params" with
        | None => Ok untouched
        | Some (VDict r) =>
            let kwargs := Dict.update kwargs r in
            match Dict.get r "data" with
            | None =>
                let dd' := Dict.del dd "requests_params" in
                Ok {| m_kwargs := Dict.set kwargs "data" (VDict dd');
                      m_data := VDict dd';
                      m_nested := Some r |}
            | Some (VDict x) =>
                if Dict.mem "requests_params" x then
                  let x' := Dict.del x "requests_params" in
                  let r' := Dict.set r "data" (VDict x') in
                  Ok {| m_kwargs := Dict.set kwargs "data" (VDict x');
                        m_data := VDict (Dict.set dd "requests_params" (VDict r'));
                        m_nested := Some r' |}
                else Raise (KeyError "requests_params")
            | Some _ => Raise TypeError
            end
        | Some _ => Raise TypeError
        end
      else Ok untouched
  | _ => Ok untouched
  end.

(** Lines 109-111, for [signed is True]. *)
Definition sign (self : CoreClient) (kwargs : dict) : Result dict :=
  let found :=
    match Dict.get kwargs "headers" with Some v => v | None => VDict [] end in
  match found with
  | VDict headers =>
      Ok (Dict.set kwargs "headers"
            (VDict (Dict.set headers "Authorization"
                      (VStr ("Bearer " ++ str (access_token self))))))
  | _ => Raise AttributeError
  end.

(** One item of the generator of line 114: [f"{data[0]}={data[1]}"]. *)
Definition query_pair (item : pyval) : Result string :=
  rbind (getitem_int item 0) (fun a =>
  rbind (getitem_int item 1) (fun b =>
  Ok (str a ++ "=" ++ str b))).

(** Lines 113-115. *)
Definition body_to_query (method : RequestMethod) (data : pyval)
    (kwargs : dict) : Result dict :=
  if (truthy data && String.eqb (method_value method) "get")%bool then
    rbind (getitem_str (VDict kwargs) "data") (fun body =>
    rbind (py_iter body) (fun items =>
    rbind (mapM query_pair items) (fun pairs =>
    Ok (Dict.del (Dict.set kwargs "params" (VStr (join "&" pairs))) "data"))))
  else Ok kwargs.

(** [kwargs.update(self._requests_params)] makes the options share the
    objects of the configured defaults, so what the function then changes in
    place inside [kwargs["data"]] or [kwargs["headers"]] is changed in the
    defaults.  [owns self k] is the configured mapping when the object under
    [k] is its own. *)
Definition owns (self : CoreClient) (k : string) : option dict :=
  match _requests_params self with
  | Some d => if (truthy (VDict d) && Dict.mem k d)%bool then Some d else None
  | None => None
  end.

Definition store (self : CoreClient) (k : string) (v : pyval) : CoreClient :=
  match owns self k with
  | Some d => set_requests_params self (Some (Dict.set d k v))
  | None => self
  end.

(** Where [headers.update] lands: in the merged per-call mapping when that
    one brought the headers (seen from the data object as long as the mapping
    is still in it), else in the configured defaults when they did. *)
Definition store_headers (self : CoreClient) (m : merged) (headers : pyval)
  : CoreClient :=
  match m_nested m with
  | Some r =>
      if Dict.mem "headers" r then
        match m_data m with
        | VDict dd =>
            if Dict.mem "requests_params" dd then
              store self "data"
                (VDict (Dict.set dd "requests_params"
                          (VDict (Dict.set r "headers" headers))))
            else self
        | _ => self
        end
      else store self "headers" headers
  | None => store self "headers" headers
  end.

Definition _get_request_kwargs (self : CoreClient) (method : RequestMethod)
    (signed : pyval) (kwargs : dict) : Result dict * CoreClient :=
  let kwargs := Dict.set kwargs "timeout" REQUEST_TIMEOUT in
  let kwargs :=
    match _requests_params self with
    | Some d => if truthy (VDict d) then Dict.update kwargs d else kwargs
    | None => kwargs
    end in
  match merge_per_call kwargs with
  | Raise e => (Raise e, self)
  | Ok m =>
      let self1 := store self "data" (m_data m) in
      match signed with
      | VBool true =>
          match sign self (m_kwargs m) with
          | Raise e => (Raise e, self1)
          | Ok kwargs =>
              let headers :=
                match Dict.get kwargs "headers" with
                | Some h => h
                | None => VNone
                end in
              (body_to_query method (m_data m) kwargs,
               store_headers self1 m headers)
          end
      | _ => (body_to_query method (m_data m) (m_kwargs m), self1)
      end
  end.

(** ** The network *)

(** A call of a session method: [getattr(self.session, method)(uri, **kwargs)]. *)
Record Call : Type := {
  c_method : RequestMethod;
  c_uri : string;
  c_kwargs : dict
}.

(** What a client does to the outside world: it calls the session, and it
    sleeps.  [ESleep n] records the call [time.sleep(n)] or
    [asyncio.sleep(n)]. *)
Inductive Event : Type :=
| ECall : Call -> Event
| ESleep : Z -> Event.

(** What the server answers: a status, a body, and what decoding the body as
    JSON gives. *)
Record Reply : Type := {
  r_status : Z;
  r_text : string;
  r_json : option pyval
}.

(** The world keeps the trace of events so far and the answers the coming
    calls will get, [None] for a call that dies in the HTTP library (no
    connection, time-out).  A call beyond the script dies too. *)
Record World : Type := {
  events : list Event;
  network : list (option Reply)
}.

Definition emit (e : Event) (w : World) : World :=
  {| events := events w ++ [e]; network := network w |}.

(** [s.upper()] for a verb. *)
Definition verb (m : RequestMethod) : string :=
  match m with
  | GET => "GET"
  | POST => "POST"
  | PUT => "PUT"
  | DELETE => "DELETE"
  end.

(** The path of a URL: what follows the scheme and the host, ["/"] when
    nothing does. *)
Fixpoint from_slash (s : string) : string :=
  match s with
  | EmptyString => "/"
  | String c s' => if Ascii.eqb c "/" then s else from_slash s'
  end.

Definition url_path (uri : string) : string :=
  match index 0 "://" uri with
  | Some n => from_slash (substring (n + 3) (String.length uri) uri)
  | None => from_slash uri
  end.

(** The response object the HTTP library hands back for a call: it reports
    the verb in capitals and the path of the URL, as a string starting with
    ["/"] or as the tuple [("/", segment, ...)].  The query string the library
    derives from [params] is left out. *)
Definition response_of (c : Call) (r : Reply) : Response :=
  let path := url_path (c_uri c) in
  {| status_code := r_status r;
     text := r_text r;
     json := r_json r;
     req_method := verb (c_method c);
     path_url := path;
     url_parts := "/" :: split_on "/" (substring 1 (String.length path) path) |}.

Definition session_call (c : Call) (w : World) : Result Response * World :=
  let w' := emit (ECall c) w in
  match network w with
  | Some r :: rest =>
      (Ok (response_of c r), {| events := events w'; network := rest |})
  | None :: rest =>
      (Raise ConnectionError, {| events := events w'; network := rest |})
  | [] => (Raise ConnectionError, w')
  end.

(** ** Methods of the clients *)

(** A method runs on the client object and the world, changes both, and
    returns or raises; what it changed before raising stays changed. *)
Definition M (A : Type) : Type :=
  CoreClient -> World -> Result A * CoreClient * World.

Definition ret {A} (a : A) : M A := fun self w => (Ok a, self, w).

Definition throw {A} (e : exn) : M A := fun self w => (Raise e, self, w).

Definition bind {A B} (m : M A) (k : A -> M B) : M B :=
  fun self w =>
    match m self w with
    | (Ok a, self', w') => k a self' w'
    | (Raise e, self', w') => (Raise e, self', w')
    end.

Definition lift {A} (r : Result A) : M A := fun self w => (r, self, w).

Notation "x <- m ;; k" := (bind m (fun x => k))
  (at level 61, m at next level, right associativity).

(** Python refuses a call that passes through [**kwargs] a name the callee
    also gets positionally or by an explicit keyword. *)
Definition no_clash (names : list string) (kwargs : dict) : Result unit :=
  if existsb (fun n => Dict.mem n kwargs) names then Raise TypeError
  else Ok tt.

(** The value a parameter with a default gets: the explicit keyword of the
    call if there is one (then [**kwargs] must not name it too), else the
    entry of [**kwargs], else the default. *)
Definition keyword (name : string) (explicit : option pyval) (default : pyval)
    (kwargs : dict) : Result pyval :=
  match explicit, Dict.get kwargs name with
  | Some _, Some _ => Raise TypeError
  | Some v, None => Ok v
  | None, Some v => Ok v
  | None, None => Ok default
  end.

(** [_request] of both clients. *)
Definition _request (v : variant) (method : RequestMethod) (uri : string)
    (signed : pyval) (kwargs : dict) : M pyval :=
  _ <- lift (no_clash ["self"; "method"; "uri"; "signed"] kwargs) ;;
  fun self w =>
    match _get_request_kwargs self method signed kwargs with
    | (Raise e, self') => (Raise e, self', w)
    | (Ok kwargs, self') =>
        match session_call
                {| c_method := method; c_uri := uri; c_kwargs := kwargs |} w
        with
        | (Raise e, w') => (Raise e, self', w')
        | (Ok response, w') => (_handle_response v response, self', w')
        end
    end.

(** [_request_api] of both clients. *)
Definition _request_api (v : variant) (method : RequestMethod) (path : string)
    (signed version : pyval) (kwargs : dict) : M pyval :=
  _ <- lift (no_clash ["self"; "method"; "path"; "signed"; "version"] kwargs) ;;
  _request v method (_create_api_uri path version) signed kwargs.

(** [_get], [_post] and [_delete] of both clients differ in the member of
    [RequestMethod] they pass on.  [signed] and [version] are the explicit
    keywords of the call, if any. *)
Definition _verb (v : variant) (method : RequestMethod) (path : string)
    (signed version : option pyval) (kwargs : dict) : M pyval :=
  _ <- lift (no_clash ["self"; "path"] kwargs) ;;
  s <- lift (keyword "signed" signed (VBool false) kwargs) ;;
  ver <- lift (keyword "version" version (VStr PUBLIC_API_VERSION_1) kwargs) ;;
  _request_api v method path s ver
    (Dict.del (Dict.del kwargs "signed") "version").

Definition _get (v : variant) := _verb v GET.
Definition _post (v : variant) := _verb v POST.
Definition _delete (v : variant) := _verb v DELETE.

(** ** Endpoint methods *)

(** Assignments to the token attributes. *)
Definition assign_access_token (v : pyval) : M unit :=
  fun self w => (Ok tt, set_access_token self v, w).

Definition assign_refresh_token (v : pyval) : M unit :=
  fun self w => (Ok tt, set_refresh_token self v, w).

Definition get_self : M CoreClient := fun self w => (Ok self, self, w).

(** [login] of both clients. *)
Definition login (v : variant) (kwargs : dict) : M pyval :=
  self <- get_self ;;
  let kwargs :=
    Dict.set kwargs "json"
      (VDict [("api_key", api_key self); ("secret_key", api_secret self)]) in
  r <- _post v LOGIN_URL None None kwargs ;;
  refresh <- lift (getitem_str r "refresh") ;;
  _ <- assign_refresh_token refresh ;;
  access <- lift (getitem_str r "access") ;;
  _ <- assign_access_token access ;;
  ret r.

(** [refresh_access_token] of both clients. *)
Definition refresh_access_token (v : variant) (refresh_token' : pyval)
    (kwargs : dict) : M pyval :=
  self <- get_self ;;
  let kwargs :=
    Dict.set kwargs "json"
      (VDict [("refresh", py_or refresh_token' (refresh_token self))]) in
  r <- _post v REFRESH_TOKEN_URL None None kwargs ;;
  access <- lift (getitem_str r "access") ;;
  _ <- assign_access_token access ;;
  ret r.

(** [get_currencies_info] of both clients. *)
Definition get_currencies_info (v : variant) : M pyval :=
  _get v CURRENCIES_LIST_URL None None [].

(** [cancel_order] of both clients: the [except] clause raises again what
    it catches, the [else] clause drops what [_delete] returned. *)
Definition cancel_order (v : variant) (order_id : string) (kwargs : dict)
  : M pyval :=
  _ <- _delete v (ORDERS_URL ++ order_id ++ "/") (Some (VBool true)) None kwargs ;;
  ret (cancel_payload order_id).

(** An [OrderDict]: the dictionary the caller wrote, and the string it
    holds under its required key ["symbol"]. *)
Record OrderDict : Type := {
  symbol : string;
  as_dict : dict
}.

(** [create_order_bulk] of both clients.  When the dictionary comprehension
    reads [locals()], the names bound are [self], [orders], [kwargs],
    [max_orders] and [market]. *)
Definition create_order_bulk (v : variant) (orders : list OrderDict)
    (kwargs : dict) : M pyval :=
  let max_orders := 10%nat in
  if Nat.ltb max_orders (List.length orders) then
    throw (ValueError
      "A maximum of 10 orders can be placed at a time! not creating order!")
  else
    let market :=
      match orders with o :: _ => Some (symbol o) | [] => None end in
    if existsb (fun order =>
                  match market with
                  | Some m => negb (String.eqb (symbol order) m)
                  | None => true
                  end) orders
    then
      throw (ValueError
        "All orders must be in the same market! not creating order!")
    else
      let body :=
        ([("orders",
           VStr (str (VList (map (fun o => VDict (as_dict o)) orders))));
          ("max_orders", VStr (str (VInt (Z.of_nat max_orders))))]
         ++ match market with
            | Some m => [("market", VStr (str (VStr m)))]
            | None => []
            end)%list in
      _post v BULK_ORDER_URL (Some (VBool true)) None
        (Dict.set kwargs "json" (VDict body)).

(** ** Background tasks *)

Definition sleep (secs : Z) : M unit :=
  fun self w => (Ok tt, self, emit (ESleep secs) w).

(** One round of the [while True] loop of a background task: the body of
    the [try] is the operation and then the sleep; [except Exception:
    continue] drops whatever either of them raised. *)
Definition round (op : M pyval) (interval : CoreClient -> Z)
  : CoreClient -> World -> CoreClient * World :=
  fun self w =>
    match (_ <- op ;; self' <- get_self ;; sleep (interval self')) self w with
    | (_, self', w') => (self', w')
    end.

(** The first [n] rounds of a loop that never ends. *)
Fixpoint rounds (n : nat) (op : M pyval) (interval : CoreClient -> Z)
    (self : CoreClient) (w : World) : CoreClient * World :=
  match n with
  | O => (self, w)
  | S n' =>
      let '(self', w') := round op interval self w in
      rounds n' op interval self' w'
  end.

(** [_background_relogin_task] of both clients, [n] rounds of it. *)
Definition _background_relogin_task (v : variant) (n : nat)
  : CoreClient -> World -> CoreClient * World :=
  rounds n (login v []) _background_relogin_interval.

(** [_background_refresh_token_task] of both clients, [n] rounds of it. *)
Definition _background_refresh_token_task (v : variant) (n : nat)
  : CoreClient -> World -> CoreClient * World :=
  rounds n (refresh_access_token v VNone []) _background_refresh_token_interval.

(** ** Vocabulary of the statements *)

(** A dictionary as Python builds it: no key twice. *)
Fixpoint wf_dict (d : dict) : bool :=
  match d with
  | [] => true
  | (k, _) :: d' => (negb (Dict.mem k d') && wf_dict d')%bool
  end.

(** The configured default options, nothing when none were given. *)
Definition configured (self : CoreClient) : dict :=
  match _requests_params self with Some d => d | None => [] end.

(** The options after lines 95-98 of the builder. *)
Definition with_defaults (self : CoreClient) (kwargs : dict) : dict :=
  Dict.update (Dict.set kwargs "timeout" REQUEST_TIMEOUT) (configured self).

(** The per-call [requests_params] mapping lines 100-106 merge: the one
    inside a dictionary under ["data"], nothing otherwise. *)
Definition nested (kwargs : dict) : dict :=
  match Dict.get kwargs "data" with
  | Some (VDict dd) =>
      match Dict.get dd "requests_params" with
      | Some (VDict r) => r
      | _ => []
      end
  | _ => []
  end.

(** The value the merge leaves under a key: the nested per-call mapping
    first, then the configured defaults, then the fixed timeout, then the
    keyword options of the caller. *)
Definition merged_get (self : CoreClient) (kwargs : dict) (k : string)
  : option pyval :=
  match Dict.get (nested (with_defaults self kwargs)) k with
  | Some v => Some v
  | None =>
      match Dict.get (configured self) k with
      | Some v => Some v
      | None =>
          if String.eqb k "timeout" then Some REQUEST_TIMEOUT
          else Dict.get kwargs k
      end
  end.

(** Keyword options that name no parameter of the request methods. *)
Definition plain_options (kwargs : dict) : bool :=
  negb (existsb (fun n => Dict.mem n kwargs)
          ["self"; "path"; "method"; "uri"; "signed"; "version"]).

(** The test both handlers apply to the status. *)
Definition is_2xx (s : Z) : bool := startswith "2" (str_int s).

(** The value of [signed] a request method works with when the caller's
    options do not name it. *)
Definition signed_of (explicit : option pyval) : pyval :=
  match explicit with Some s => s | None => VBool false end.

(** The call a request method hands to the session. *)
Definition call_of (method : RequestMethod) (path : string) (kwargs : dict)
  : Call :=
  {| c_method := method;
     c_uri := _create_api_uri path (VStr PUBLIC_API_VERSION_1);
     c_kwargs := kwargs |}.

(** The world once a call was made and answered. *)
Definition answered (w : World) (c : Call) (rest : list (option Reply))
  : World :=
  {| events := events w ++ [ECall c]; network := rest |}.

(** A three-digit status outside 200-299. *)
Definition non_2xx (s : Z) : Prop := 100 <= s <= 999 /\ ~ (200 <= s <= 299).

(** *** Sample objects *)

(** A client with credentials and tokens and no default options. *)
Definition sample_client : CoreClient :=
  {| api_key := VStr "key"; api_secret := VStr "secret";
     access_token := VStr "tok"; refresh_token := VStr "ref";
     _requests_params := None;
     _background_relogin := false;
     _background_relogin_interval := 518400;
     _background_refresh_token := true;
     _background_refresh_token_interval := 780 |}.

(** A world with nothing done yet and the given answers to come. *)
Definition fresh_world (script : list (option Reply)) : World :=
  {| events := []; network := script |}.

(** An answer without a body, as the exchange gives to a deletion. *)
Definition no_content : Reply :=
  {| r_status := 204; r_text := ""; r_json := None |}.

Definition server_error : Reply :=
  {| r_status := 500; r_text := "Internal Server Error"; r_json := None |}.

Definition not_found : Reply :=
  {| r_status := 404; r_text := "{}"; r_json := Some (VDict []) |}.

Definition new_access : Reply :=
  {| r_status := 200; r_text := "{'access': 'tok2'}";
     r_json := Some (VDict [("access", VStr "tok2")]) |}.

(** The answer [not_found] to the cancellation of order 42, as either
    library presents it. *)
Definition failed_delete : Response :=
  response_of (call_of DELETE "odr/orders/42/" []) not_found.

Definition two_markets : list OrderDict :=
  [{| symbol := "BTC_IRT"; as_dict := [("symbol", VStr "BTC_IRT")] |};
   {| symbol := "ETH_IRT"; as_dict := [("symbol", VStr "ETH_IRT")] |}].

(** An answer a background task counts as a failure of the operation: none
    at all, or one with a three-digit status outside 200-299. *)
Definition failing (a : option Reply) : Prop :=
  match a with
  | None => True
  | Some r => non_2xx (r_status r)
  end.

(** The body C9 gives [refresh_access_token] to post: the supplied token if
    one is given, the stored one otherwise. *)
Definition spec_refresh_body (supplied : pyval) (self : CoreClient) : pyval :=
  VDict [("refresh",
          match supplied with VNone => refresh_token self | t => t end)].

(** C9's first part, as the specification words it: the call [refresh_access_token]
    adds to the trace carries that body. *)
Definition spec_refresh_posts (v : variant) (supplied : pyval) (kwargs : dict)
    (self : CoreClient) (w : World) : Prop :=
  forall c,
    events (snd (refresh_access_token v supplied kwargs self w))
      = (events w ++ [ECall c])%list ->
    Dict.get (c_kwargs c) "json" = Some (spec_refresh_body supplied self).

(** The body [refresh_access_token] posts. *)
Definition refresh_body (supplied : pyval) (self : CoreClient) : pyval :=
  VDict [("refresh",
          if truthy supplied then supplied else refresh_token self)].

(** The call a client without default options makes to refresh its
    access token from the stored refresh token. *)
Definition refresh_call (self : CoreClient) : Call :=
  call_of POST REFRESH_TOKEN_URL
    [("json", VDict [("refresh", refresh_token self)]); ("timeout", VInt 10)].

(** C3 as the specification words it: whatever the caller passed under a key is
    what the finalized options hold under it. *)
Definition spec_caller_wins (self : CoreClient) (method : RequestMethod)
    (signed : pyval) (kwargs : dict) : Prop :=
  forall kwargs' self',
    _get_request_kwargs self method signed kwargs = (Ok kwargs', self') ->
    forall k v, Dict.get kwargs k = Some v -> Dict.get kwargs' k = Some v.

(** C6 as the specification words it: the finalized headers of a signed request
    hold the bearer token and every other header entry the caller passed. *)
Definition spec_bearer_keeps_caller_headers (self : CoreClient)
    (method : RequestMethod) (kwargs : dict) : Prop :=
  forall kwargs' self',
    _get_request_kwargs self method (VBool true) kwargs = (Ok kwargs', self') ->
    exists h,
      Dict.get kwargs' "headers" = Some (VDict h) /\
      Dict.get h "Authorization"
        = Some (VStr ("Bearer " ++ str (access_token self))) /\
      forall ch k v,
        Dict.get kwargs "headers" = Some (VDict ch) ->
        k <> "Authorization" ->
        Dict.get ch k = Some v -> Dict.get h k = Some v.

(** The header mapping [headers.update] works on: the one the merge left
    under ["headers"], a new empty one when it left none. *)
Definition merged_headers (self : CoreClient) (kwargs : dict) : dict :=
  match merged_get self kwargs "headers" with
  | Some (VDict h) => h
  | _ => []
  end.

(** A client configured with default options. *)
Definition client_with (defaults : dict) : CoreClient :=
  set_requests_params sample_client (Some defaults).

(** ** The rest of the clients *)

Definition MARKETS_LIST_URL : string := "mkt/markets/".
Definition TICKERS_LIST_URL : string := "mkt/tickers/".
Definition WALLETS_URL : string := "wlt/wallets/".
Definition FILLED_ORDERS_URL : string := "odr/fills/".

(** [ORDERBOOK_URL.format(symbol, ...)] and [RECENT_TRADES_URL.format(symbol)]:
    the one field of either template takes the first argument. *)
Definition ORDERBOOK_URL (symbol : string) : string :=
  "mth/orderbook/" ++ symbol ++ "/".
Definition RECENT_TRADES_URL (symbol : string) : string :=
  "mth/matches/" ++ symbol ++ "/".

(** [v is None] *)
Definition is_none (v : pyval) : bool :=
  match v with VNone => true | _ => false end.

(** [{k: str(v) for k, v in locals().items() if v is not None and k not in
    {"self", "kwargs"}}], given the local names other than [self] and
    [kwargs] with their values, in the order the function binds them. *)
Definition stringified (locals : dict) : dict :=
  map (fun '(k, x) => (k, VStr (str x)))
      (filter (fun kv => negb (is_none (snd kv))) locals).

(** [get_markets_info] and [get_tickers_info] of both clients. *)
Definition get_markets_info (v : variant) : M pyval :=
  _get v MARKETS_LIST_URL None None [].

Definition get_tickers_info (v : variant) : M pyval :=
  _get v TICKERS_LIST_URL None None [].

(** [get_wallets] of both clients. *)
Definition get_wallets (v : variant) (assets service offset limit : pyval)
    (kwargs : dict) : M pyval :=
  _get v WALLETS_URL (Some (VBool true)) None
    (Dict.set kwargs "params"
       (VDict (stringified [("assets", assets); ("service", service);
                            ("offset", offset); ("limit", limit)]))).

(** [get_orderbook] and [get_recent_trades] of both clients. *)
Definition get_orderbook (v : variant) (symbol : string) : M pyval :=
  _get v (ORDERBOOK_URL symbol) None (Some (VStr PUBLIC_API_VERSION_1)) [].

Definition get_recent_trades (v : variant) (symbol : string) : M pyval :=
  _get v (RECENT_TRADES_URL symbol) None None [].

(** The two statements [get_user_orders] and [get_user_trades] share:
    [kwargs["params"] = kwargs.get("params", {})] and
    [kwargs["params"].update(filters)]; only a dictionary has [update]. *)
Definition add_params (kwargs : dict) (filters : dict) : Result dict :=
  match (match Dict.get kwargs "params" with
         | Some p => p
         | None => VDict []
         end) with
  | VDict p => Ok (Dict.set kwargs "params" (VDict (Dict.update p filters)))
  | _ => Raise AttributeError
  end.

(** [get_user_orders] of both clients; [start] and [end] are dates or [None],
    and only [None] is in the universe of values. *)
Definition get_user_orders (v : variant)
    (symbol side state type_ identifier start end_ ids_in identifiers_in
       offset limit : pyval)
    (kwargs : dict) : M pyval :=
  kwargs <- lift (add_params kwargs
    (stringified [("symbol", symbol); ("side", side); ("state", state);
                  ("type", type_); ("identifier", identifier);
                  ("start", start); ("end", end_); ("ids_in", ids_in);
                  ("identifiers_in", identifiers_in);
                  ("offset", offset); ("limit", limit)])) ;;
  _get v ORDERS_URL (Some (VBool true)) None kwargs.

(** [get_user_trades] of both clients. *)
Definition get_user_trades (v : variant) (symbol side offset limit : pyval)
    (kwargs : dict) : M pyval :=
  kwargs <- lift (add_params kwargs
    (stringified [("symbol", symbol); ("side", side);
                  ("offset", offset); ("limit", limit)])) ;;
  _get v ORDERS_URL (Some (VBool true)) None kwargs.

(** The body [create_order] builds: the dictionary display, then the
    comprehension that drops the entries that are [None]. *)
Definition order_body
    (symbol type_ side base_amount quote_amount price stop_price
       oco_target_price identifier : pyval) : dict :=
  filter (fun kv => negb (is_none (snd kv)))
    [("symbol", symbol); ("type", type_); ("side", side); ("price", price);
     ("base_amount", base_amount); ("quote_amount", quote_amount);
     ("stop_price", stop_price); ("oco_target_price", oco_target_price);
     ("identifier", identifier)].

(** [create_order] of both clients. *)
Definition create_order (v : variant)
    (symbol type_ side base_amount quote_amount price stop_price
       oco_target_price identifier : pyval)
    (kwargs : dict) : M pyval :=
  _post v ORDERS_URL (Some (VBool true)) None
    (Dict.set kwargs "json"
       (VDict (order_body symbol type_ side base_amount quote_amount price
                 stop_price oco_target_price identifier))).

(** [cancel_order_bulk] of both clients. *)
Definition cancel_order_bulk (v : variant) (ids identifiers : pyval)
    (kwargs : dict) : M pyval :=
  _delete v BULK_ORDER_URL (Some (VBool true)) None
    (Dict.set kwargs "json"
       (VDict (stringified [("ids", ids); ("identifiers", identifiers)]))).

(** *** Construction *)

(** The two background tasks a client can start. *)
Inductive background : Type := Relogin | RefreshToken.

(** [_handle_login] of both clients.  Starting a thread (blocking client)
    or a task on the loop (non-blocking client) is all the method does with
    a background task; the result lists the ones it started, in order. *)
Definition _handle_login (v : variant) : M (list background) :=
  self <- get_self ;;
  _ <- (if (truthy (api_key self) && truthy (api_secret self))%bool
        then login v []
        else ret VNone) ;;
  self <- get_self ;;
  ret ((if _background_relogin self then [Relogin] else [])
       ++ (if _background_refresh_token self then [RefreshToken] else []))%list.

(** [os.environ.get(name)] *)
Definition environ_get (environ : list (string * string)) (name : string)
  : pyval :=
  match find (fun kv => String.eqb (fst kv) name) environ with
  | Some kv => VStr (snd kv)
  | None => VNone
  end.

(** [CoreClient.__init__], without the session. *)
Definition __init__ (environ : list (string * string))
    (api_key' api_secret' access_token' refresh_token' : pyval)
    (requests_params : option dict)
    (background_relogin : bool) (background_relogin_interval : Z)
    (background_refresh_token : bool) (background_refresh_token_interval : Z)
  : CoreClient :=
  {| api_key := py_or api_key' (environ_get environ "BITPIN_API_KEY");
     api_secret := py_or api_secret' (environ_get environ "BITPIN_API_SECRET");
     access_token :=
       py_or access_token' (environ_get environ "BITPIN_ACCESS_TOKEN");
     refresh_token :=
       py_or refresh_token' (environ_get environ "BITPIN_REFRESH_TOKEN");
     _requests_params := requests_params;
     _background_relogin := background_relogin;
     _background_relogin_interval := background_relogin_interval;
     _background_refresh_token := background_refresh_token;
     _background_refresh_token_interval := background_refresh_token_interval |}.

(** [Client(...)] and [await AsyncClient.create(...)]: the new object, then
    [_handle_login] on it.  An exception leaves no client. *)
Definition create (v : variant) (self : CoreClient) (w : World)
  : Result (CoreClient * list background) * World :=
  match _handle_login v self w with
  | (Ok started, self', w') => (Ok (self', started), w')
  | (Raise e, _, w') => (Raise e, w')
  end.

(** *** [CoreClient._pick] *)

(** [a == b] *)
Fixpoint py_eq (a b : pyval) {struct a} : bool :=
  match a, b with
  | VNone, VNone => true
  | VBool x, VBool y => Bool.eqb x y
  | VBool x, VInt y => (if x then 1 else 0) =? y
  | VInt x, VBool y => x =? (if y then 1 else 0)
  | VInt x, VInt y => x =? y
  | VStr x, VStr y => String.eqb x y
  | VList la, VList lb =>
      (fix all2 (la lb : list pyval) {struct la} : bool :=
         match la, lb with
         | [], [] => true
         | x :: la', y :: lb' => (py_eq x y && all2 la' lb')%bool
         | _, _ => false
         end) la lb
  | VDict da, VDict db =>
      (Nat.eqb (List.length da) (List.length db)
       && (fix all (da : list (string * pyval)) : bool :=
             match da with
             | [] => true
             | (k, x) :: da' =>
                 (match Dict.get db k with
                  | Some y => py_eq x y
                  | None => false
                  end && all da')%bool
             end) da)%bool
  | _, _ => false
  end.

(** The loop of [_pick]: the first item whose field equals the value. *)
Fixpoint pick_first (items : list pyval) (key : string) (value : pyval)
  : Result (option pyval) :=
  match items with
  | [] => Ok None
  | item :: items' =>
      rbind (getitem_str item key) (fun field =>
      if py_eq field value then Ok (Some item)
      else pick_first items' key value)
  end.

(** [CoreClient._pick] *)
Definition _pick (response : dict) (key : string) (value : pyval)
    (result_key : string) : Result dict :=
  rbind (py_iter match Dict.get response result_key with
                 | Some l => l
                 | None => VList []
                 end) (fun items =>
  rbind (pick_first items key value) (fun found =>
  match found with
  | Some item => Ok (Dict.set response result_key item)
  | None =>
      Raise (ValueError (key ++ " " ++ str value ++ " not found in "
                         ++ str (VDict response)))
  end)).

(** The call [login] makes on a client without default options. *)
Definition login_call (self : CoreClient) : Call :=
  call_of POST LOGIN_URL
    [("json", VDict [("api_key", api_key self); ("secret_key", api_secret self)]);
     ("timeout", VInt 10)].

(** The bearer value the builder writes for a client. *)
Definition bearer (self : CoreClient) : pyval :=
  VStr ("Bearer " ++ str (access_token self)).

(** ** Dictionaries: lookup after an update *)

Lemma get_set_same : forall d k v, Dict.get (Dict.set d k v) k = Some v.
Proof.
  induction d as [|[k' v'] d IH]; intros k v; simpl.
  - now rewrite String.eqb_refl.
  - destruct (String.eqb k' k) eqn:E; simpl.
    + now rewrite String.eqb_refl.
    + rewrite E. apply IH.
Qed.

Lemma get_set_other : forall d k v k',
  k' <> k -> Dict.get (Dict.set d k v) k' = Dict.get d k'.
Proof.
  induction d as [|[k0 v0] d IH]; intros k v k' Hne; simpl.
  - destruct (String.eqb k k') eqn:E; [|reflexivity].
    apply String.eqb_eq in E. congruence.
  - destruct (String.eqb k0 k) eqn:E; simpl.
    + apply String.eqb_eq in E. subst k0.
      destruct (String.eqb k k') eqn:E'; [|reflexivity].
      apply String.eqb_eq in E'. congruence.
    + destruct (String.eqb k0 k'); [reflexivity|]. now apply IH.
Qed.

Lemma get_del_other : forall d k k',
  k' <> k -> Dict.get (Dict.del d k) k' = Dict.get d k'.
Proof.
  induction d as [|[k0 v0] d IH]; intros k k' Hne; simpl; [reflexivity|].
  destruct (String.eqb k0 k) eqn:E; simpl.
  - apply String.eqb_eq in E. subst k0.
    destruct (String.eqb k k') eqn:E'.
    + apply String.eqb_eq in E'. congruence.
    + now apply IH.
  - destruct (String.eqb k0 k'); [reflexivity|]. now apply IH.
Qed.

Lemma del_absent : forall d k, Dict.mem k d = false -> Dict.del d k = d.
Proof.
  unfold Dict.mem.
  induction d as [|[k0 v0] d IH]; intros k H; simpl in *; [reflexivity|].
  destruct (String.eqb k0 k); simpl; [discriminate|].
  f_equal. now apply IH.
Qed.

Lemma get_update : forall e d k,
  wf_dict e = true ->
  Dict.get (Dict.update d e) k =
  match Dict.get e k with Some v => Some v | None => Dict.get d k end.
Proof.
  unfold Dict.update.
  induction e as [|[k1 v1] e IH]; intros d k Hwf; simpl in *; [reflexivity|].
  apply andb_prop in Hwf. destruct Hwf as [Hk He].
  rewrite IH by assumption.
  destruct (String.eqb k1 k) eqn:E.
  - apply String.eqb_eq in E. subst k1.
    unfold Dict.mem in Hk. destruct (Dict.get e k); [discriminate|].
    apply get_set_same.
  - destruct (Dict.get e k); [reflexivity|].
    apply get_set_other. intro; subst. now rewrite String.eqb_refl in E.
Qed.

(** ** Status codes *)

Lemma three_digit_scan :
  forallb (fun n => Bool.eqb (is_2xx (Z.of_nat n))
                      ((200 <=? Z.of_nat n) && (Z.of_nat n <=? 299))%bool)
          (seq 100 900) = true.
Proof. vm_compute. reflexivity. Qed.

Lemma is_2xx_three_digit : forall s,
  100 <= s <= 999 -> is_2xx s = ((200 <=? s) && (s <=? 299))%bool.
Proof.
  intros s Hs.
  pose proof three_digit_scan as H.
  rewrite forallb_forall in H.
  specialize (H (Z.to_nat s)).
  rewrite Z2Nat.id in H by lia.
  apply Bool.eqb_prop, H, in_seq. lia.
Qed.

Lemma status_2xx : forall s, 200 <= s <= 299 -> is_2xx s = true.
Proof.
  intros s Hs. rewrite is_2xx_three_digit by lia.
  apply andb_true_intro. split; apply Z.leb_le; lia.
Qed.

Lemma status_non_2xx : forall s, non_2xx s -> is_2xx s = false.
Proof.
  intros s [Hs Hn]. rewrite is_2xx_three_digit by lia.
  destruct (200 <=? s) eqn:E1; [|reflexivity].
  destruct (s <=? 299) eqn:E2; [|reflexivity].
  apply Z.leb_le in E1, E2. lia.
Qed.

(** ** Paths *)

Lemma split_on_nonempty : forall sep s, split_on sep s <> [].
Proof.
  intros sep s. destruct s as [|c s]; simpl; [discriminate|].
  destruct (Ascii.eqb c sep); [discriminate|].
  destruct (split_on sep s); discriminate.
Qed.

Lemma last_but_one_ok : forall (A : Type) (a b : A) (l : list A),
  exists x, last_but_one (a :: b :: l) = Ok x.
Proof.
  intros A a b l. unfold last_but_one.
  pose proof (length_rev (a :: b :: l)) as Hlen.
  destruct (rev (a :: b :: l)) as [|x [|y t]]; simpl in Hlen; try lia.
  now exists y.
Qed.

Lemma path_url_segment : forall p,
  startswith "/" p = true -> exists id, last_but_one (split_on "/" p) = Ok id.
Proof.
  intros [|c p] H; cbn [startswith] in H; [discriminate|].
  rewrite andb_true_r in H. apply Ascii.eqb_eq in H. subst c.
  simpl. destruct (split_on "/" p) as [|f fs] eqn:E.
  - now apply split_on_nonempty in E.
  - apply last_but_one_ok.
Qed.

Lemma url_parts_segment : forall c r,
  exists id, last_but_one (url_parts (response_of c r)) = Ok id.
Proof.
  intros c r. simpl.
  destruct (split_on "/" _) as [|f fs] eqn:E.
  - now apply split_on_nonempty in E.
  - apply last_but_one_ok.
Qed.

Lemma from_slash_starts : forall s, startswith "/" (from_slash s) = true.
Proof.
  induction s as [|c s IH]; cbn [from_slash]; [reflexivity|].
  destruct (Ascii.eqb c "/") eqn:E; [|exact IH].
  apply Ascii.eqb_eq in E. subst c. reflexivity.
Qed.

Lemma path_url_starts : forall c r,
  startswith "/" (path_url (response_of c r)) = true.
Proof.
  intros c r. simpl. unfold url_path.
  destruct (index 0 "://" (c_uri c)); apply from_slash_starts.
Qed.

Lemma lower_verb : forall m, lower (verb m) = method_value m.
Proof. destruct m; reflexivity. Qed.

(** ** Handlers *)

Lemma handle_non_2xx_other : forall v response,
  is_2xx (status_code response) = false ->
  lower (req_method response) <> "delete" ->
  _handle_response v response =
  Raise (APIException (status_code response) (text response)).
Proof.
  intros v response Hs Hm. unfold is_2xx in Hs.
  destruct v; simpl;
    unfold Client._handle_response, AsyncClient._handle_response;
    rewrite Hs; simpl; [|reflexivity].
  destruct (String.eqb _ _) eqn:E; [|reflexivity].
  apply String.eqb_eq in E. contradiction.
Qed.

(** ** Calls that reach the session *)

Lemma plain_no_clash : forall names kwargs,
  plain_options kwargs = true ->
  incl names ["self"; "path"; "method"; "uri"; "signed"; "version"] ->
  no_clash names kwargs = Ok tt.
Proof.
  intros names kwargs Hp Hincl. unfold no_clash, plain_options in *.
  apply negb_true_iff in Hp.
  destruct (existsb _ names) eqn:E; [|reflexivity].
  apply existsb_exists in E. destruct E as [n [Hin Hm]].
  assert (existsb (fun n => Dict.mem n kwargs)
            ["self"; "path"; "method"; "uri"; "signed"; "version"] = true)
    by (apply existsb_exists; exists n; auto).
  congruence.
Qed.

Lemma plain_absent : forall kwargs n,
  plain_options kwargs = true ->
  In n ["self"; "path"; "method"; "uri"; "signed"; "version"] ->
  Dict.mem n kwargs = false.
Proof.
  intros kwargs n Hp Hin. unfold plain_options in Hp.
  apply negb_true_iff in Hp.
  destruct (Dict.mem n kwargs) eqn:E; [|reflexivity].
  assert (existsb (fun n => Dict.mem n kwargs)
            ["self"; "path"; "method"; "uri"; "signed"; "version"] = true)
    by (apply existsb_exists; exists n; auto).
  congruence.
Qed.

Ltac names_incl :=
  let x := fresh in
  intros x; simpl; intuition.

(** With plain options a request method comes down to the builder, the
    session and the handler. *)
Lemma verb_plain : forall v method path signed kwargs self w,
  plain_options kwargs = true ->
  _verb v method path signed None kwargs self w =
  match _get_request_kwargs self method (signed_of signed) kwargs with
  | (Raise e, self') => (Raise e, self', w)
  | (Ok kwargs', self') =>
      match session_call (call_of method path kwargs') w with
      | (Raise e, w') => (Raise e, self', w')
      | (Ok response, w') => (_handle_response v response, self', w')
      end
  end.
Proof.
  intros v method path signed kwargs self w Hp.
  assert (Hs : Dict.mem "signed" kwargs = false)
    by (apply plain_absent; simpl; auto 10).
  assert (Hv : Dict.mem "version" kwargs = false)
    by (apply plain_absent; simpl; auto 10).
  unfold _verb, _request_api, _request, bind, lift.
  rewrite (plain_no_clash ["self"; "path"]) by (auto; names_incl).
  unfold keyword.
  unfold Dict.mem in Hs, Hv.
  destruct (Dict.get kwargs "signed") eqn:Es; [discriminate|].
  destruct (Dict.get kwargs "version") eqn:Ev; [discriminate|].
  assert (Hd : Dict.del (Dict.del kwargs "signed") "version" = kwargs).
  { rewrite (del_absent kwargs "signed") by (unfold Dict.mem; now rewrite Es).
    apply del_absent. unfold Dict.mem. now rewrite Ev. }
  rewrite Hd.
  destruct signed as [s|]; simpl;
    rewrite (plain_no_clash ["self"; "method"; "path"; "signed"; "version"])
      by (auto; names_incl);
    rewrite (plain_no_clash ["self"; "method"; "uri"; "signed"])
      by (auto; names_incl);
    reflexivity.
Qed.

Lemma verb_sent : forall v method path signed kwargs self w kwargs' self' r rest,
  plain_options kwargs = true ->
  _get_request_kwargs self method (signed_of signed) kwargs = (Ok kwargs', self') ->
  network w = Some r :: rest ->
  _verb v method path signed None kwargs self w =
  (_handle_response v (response_of (call_of method path kwargs') r), self',
   answered w (call_of method path kwargs') rest).
Proof.
  intros v method path signed kwargs self w kwargs' self' r rest Hp Hb Hn.
  rewrite verb_plain by assumption. rewrite Hb.
  unfold session_call. rewrite Hn. reflexivity.
Qed.

Lemma handle_non_2xx_delete_blocking : forall response,
  is_2xx (status_code response) = false ->
  lower (req_method response) = "delete" ->
  Client._handle_response response =
  rbind (last_but_one (split_on "/" (path_url response)))
        (fun id => Ok (cancel_payload id)).
Proof.
  intros response Hs Hm. unfold is_2xx in Hs.
  unfold Client._handle_response. rewrite Hs, Hm. reflexivity.
Qed.

Lemma handle_non_2xx_nonblocking : forall response,
  is_2xx (status_code response) = false ->
  AsyncClient._handle_response response =
  Raise (APIException (status_code response) (text response)).
Proof.
  intros response Hs. unfold is_2xx in Hs.
  unfold AsyncClient._handle_response. now rewrite Hs.
Qed.

Lemma handle_2xx_delete_nonblocking : forall response,
  is_2xx (status_code response) = true ->
  lower (req_method response) = "delete" ->
  AsyncClient._handle_response response =
  rbind (last_but_one (url_parts response)) (fun id => Ok (cancel_payload id)).
Proof.
  intros response Hs Hm. unfold is_2xx in Hs.
  unfold AsyncClient._handle_response. rewrite Hs, Hm. reflexivity.
Qed.

Lemma handle_2xx_blocking : forall response,
  is_2xx (status_code response) = true ->
  Client._handle_response response = decode_json response.
Proof.
  intros response Hs. unfold is_2xx in Hs.
  unfold Client._handle_response. now rewrite Hs.
Qed.

Lemma handle_2xx_other : forall v response,
  is_2xx (status_code response) = true ->
  lower (req_method response) <> "delete" ->
  _handle_response v response = decode_json response.
Proof.
  intros v response Hs Hm. destruct v; simpl.
  - now apply handle_2xx_blocking.
  - unfold is_2xx in Hs. unfold AsyncClient._handle_response. rewrite Hs.
    simpl. destruct (String.eqb _ _) eqn:E; [|reflexivity].
    apply String.eqb_eq in E. contradiction.
Qed.

(** ** Response handling *)

(** C1, on the blocking client.  The exchange answers the cancellation of
    order 42 with 204 and no body; [Client.cancel_order] raises
    [RequestException] where the specification (and
    [AsyncClient.cancel_order]) gives [{status: "success", id: "42"}]. *)
Theorem C1_blocking_cancel_empty_body_raises :
  cancel_order Blocking "42" [] sample_client (fresh_world [Some no_content])
  = (Raise (RequestException "Invalid Response: "), sample_client,
     answered (fresh_world [Some no_content])
       (call_of DELETE "odr/orders/42/"
          [("timeout", VInt 10);
           ("headers", VDict [("Authorization", VStr "Bearer tok")])])
       [])
  /\ cancel_order NonBlocking "42" [] sample_client
       (fresh_world [Some no_content])
     = (Ok (cancel_payload "42"), sample_client,
        answered (fresh_world [Some no_content])
          (call_of DELETE "odr/orders/42/"
             [("timeout", VInt 10);
              ("headers", VDict [("Authorization", VStr "Bearer tok")])])
          []).
Proof. split; vm_compute; reflexivity. Qed.

(** What C1 states does hold on the non-blocking client: a deletion that is
    sent and answered with a status in 200-299 returns the synthesized
    payload, whatever the body. *)
Lemma cancel_order_nonblocking_2xx :
  forall order_id kwargs self w kwargs' self' r rest,
    plain_options kwargs = true ->
    _get_request_kwargs self DELETE (VBool true) kwargs = (Ok kwargs', self') ->
    network w = Some r :: rest ->
    200 <= r_status r <= 299 ->
    cancel_order NonBlocking order_id kwargs self w =
    (Ok (cancel_payload order_id), self',
     answered w
       (call_of DELETE (ORDERS_URL ++ order_id ++ "/") kwargs') rest).
Proof.
  intros order_id kwargs self w kwargs' self' r rest Hp Hb Hn Hs.
  unfold cancel_order, bind, _delete.
  rewrite (verb_sent NonBlocking DELETE _ (Some (VBool true)) kwargs self w
             kwargs' self' r rest Hp Hb Hn).
  cbn [_handle_response].
  rewrite handle_2xx_delete_nonblocking
    by (try apply status_2xx; try apply lower_verb; assumption).
  destruct (url_parts_segment
              (call_of DELETE (ORDERS_URL ++ order_id ++ "/") kwargs') r)
    as [id Hid].
  rewrite Hid. reflexivity.
Qed.

(** On the blocking client the same deletion raises as soon as the body
    does not decode, and an empty body never does. *)
Lemma cancel_order_blocking_2xx_undecodable :
  forall order_id kwargs self w kwargs' self' r rest,
    plain_options kwargs = true ->
    _get_request_kwargs self DELETE (VBool true) kwargs = (Ok kwargs', self') ->
    network w = Some r :: rest ->
    200 <= r_status r <= 299 ->
    r_json r = None ->
    cancel_order Blocking order_id kwargs self w =
    (Raise (RequestException ("Invalid Response: " ++ r_text r)), self',
     answered w
       (call_of DELETE (ORDERS_URL ++ order_id ++ "/") kwargs') rest).
Proof.
  intros order_id kwargs self w kwargs' self' r rest Hp Hb Hn Hs Hj.
  unfold cancel_order, bind, _delete.
  rewrite (verb_sent Blocking DELETE _ (Some (VBool true)) kwargs self w
             kwargs' self' r rest Hp Hb Hn).
  cbn [_handle_response].
  rewrite handle_2xx_blocking by (now apply status_2xx).
  unfold decode_json. cbn [json text response_of]. now rewrite Hj.
Qed.

(** C2.  On the answer to a DELETE request with a three-digit status outside
    200-299, [Client._handle_response] returns the synthesized payload for
    the last-but-one segment of the request path, and
    [AsyncClient._handle_response] raises [APIException] with the status and
    the body: the two handlers differ there. *)
Theorem C2_handlers_differ_on_failed_delete :
  forall response : Response,
    non_2xx (status_code response) ->
    lower (req_method response) = "delete" ->
    startswith "/" (path_url response) = true ->
    exists id,
      last_but_one (split_on "/" (path_url response)) = Ok id /\
      Client._handle_response response = Ok (cancel_payload id) /\
      AsyncClient._handle_response response =
        Raise (APIException (status_code response) (text response)) /\
      _handle_response Blocking response <> _handle_response NonBlocking response.
Proof.
  intros response Hs Hm Hp.
  apply status_non_2xx in Hs.
  destruct (path_url_segment _ Hp) as [id Hid].
  exists id.
  assert (Hb : Client._handle_response response = Ok (cancel_payload id))
    by (rewrite handle_non_2xx_delete_blocking by assumption; now rewrite Hid).
  assert (Ha : AsyncClient._handle_response response =
               Raise (APIException (status_code response) (text response)))
    by now apply handle_non_2xx_nonblocking.
  repeat split; try assumption.
  cbn [_handle_response]. rewrite Hb, Ha. discriminate.
Qed.

(** C8.  A GET, POST or PUT request that is sent and answered with a
    three-digit status outside 200-299 raises [APIException] with that
    status and the body, on both clients. *)
Theorem C8_failed_request_raises :
  forall v method path signed kwargs self w kwargs' self' r rest,
    method <> DELETE ->
    plain_options kwargs = true ->
    _get_request_kwargs self method (signed_of signed) kwargs
      = (Ok kwargs', self') ->
    network w = Some r :: rest ->
    non_2xx (r_status r) ->
    _verb v method path signed None kwargs self w =
    (Raise (APIException (r_status r) (r_text r)), self',
     answered w (call_of method path kwargs') rest).
Proof.
  intros v method path signed kwargs self w kwargs' self' r rest
         Hm Hp Hb Hn Hs.
  rewrite (verb_sent v method path signed kwargs self w kwargs' self' r rest)
    by assumption.
  rewrite handle_non_2xx_other; [reflexivity| |].
  - now apply status_non_2xx.
  - cbn [req_method response_of call_of c_method]. rewrite lower_verb.
    destruct method; try discriminate. contradiction.
Qed.

(** The answer 404 to the cancellation of order 42. *)
Lemma C2_witness :
  exists id,
    last_but_one (split_on "/" (path_url failed_delete)) = Ok id /\
    Client._handle_response failed_delete = Ok (cancel_payload id) /\
    AsyncClient._handle_response failed_delete =
      Raise (APIException 404 "{}") /\
    _handle_response Blocking failed_delete
      <> _handle_response NonBlocking failed_delete.
Proof.
  apply (C2_handlers_differ_on_failed_delete failed_delete).
  - unfold non_2xx. simpl. lia.
  - reflexivity.
  - reflexivity.
Defined.

(** [get_currencies_info] answered with 500. *)
Lemma C8_witness :
  get_currencies_info Blocking sample_client (fresh_world [Some server_error])
  = (Raise (APIException 500 "Internal Server Error"), sample_client,
     answered (fresh_world [Some server_error])
       (call_of GET CURRENCIES_LIST_URL [("timeout", VInt 10)]) []).
Proof.
  apply (C8_failed_request_raises Blocking GET CURRENCIES_LIST_URL None []
           sample_client (fresh_world [Some server_error])
           [("timeout", VInt 10)] sample_client server_error []).
  - discriminate.
  - reflexivity.
  - reflexivity.
  - reflexivity.
  - unfold non_2xx. simpl. lia.
Defined.

(** ** Bulk orders *)

Lemma existsb_other_market : forall (orders : list OrderDict) o m,
  In o orders -> symbol o <> m ->
  existsb (fun order => negb (String.eqb (symbol order) m)) orders = true.
Proof.
  intros orders o m Hin Hne. apply existsb_exists. exists o. split; [assumption|].
  apply negb_true_iff. now apply String.eqb_neq.
Qed.

(** C5.  A list of more than ten order specs, or one in which two specs
    differ in [symbol], makes [create_order_bulk] raise [ValueError] on both
    clients, with the client and the world as they were: no call is made
    and no answer is consumed. *)
Theorem C5_bulk_validation :
  forall v orders kwargs self w,
    (10 < List.length orders)%nat \/
    (exists o1 o2, In o1 orders /\ In o2 orders /\ symbol o1 <> symbol o2) ->
    exists msg,
      create_order_bulk v orders kwargs self w = (Raise (ValueError msg), self, w).
Proof.
  intros v orders kwargs self w H. unfold create_order_bulk.
  destruct (Nat.ltb 10 (List.length orders)) eqn:Elen.
  - eexists. reflexivity.
  - destruct H as [H | [o1 [o2 [H1 [H2 Hne]]]]].
    + apply Nat.ltb_lt in H. congruence.
    + destruct orders as [|o0 orders']; [contradiction|].
      assert (Hex : existsb (fun order => negb (String.eqb (symbol order) (symbol o0)))
                      (o0 :: orders') = true).
      { destruct (string_dec (symbol o1) (symbol o0)) as [E|E].
        - apply (existsb_other_market _ o2); [assumption|congruence].
        - now apply (existsb_other_market _ o1). }
      rewrite Hex. eexists. reflexivity.
Qed.

(** Two orders on two markets. *)
Lemma C5_witness :
  exists msg,
    create_order_bulk Blocking two_markets [] sample_client
      (fresh_world [Some new_access])
    = (Raise (ValueError msg), sample_client, fresh_world [Some new_access]).
Proof.
  apply (C5_bulk_validation Blocking two_markets [] sample_client
           (fresh_world [Some new_access])).
  right. eexists. eexists.
  split; [left; reflexivity|].
  split; [right; left; reflexivity|].
  simpl. discriminate.
Defined.

(** C10.  On the empty list [create_order_bulk] raises neither validation
    error: it is the signed POST of [{orders: "[]", max_orders: "10"}]
    (no [market], which is [None]) to [odr/orders/bulk/], and when the
    caller's options are plain and the builder accepts them that call
    reaches the session. *)
Theorem C10_bulk_empty_list_posts :
  forall v kwargs self w,
    create_order_bulk v [] kwargs self w =
    _post v BULK_ORDER_URL (Some (VBool true)) None
      (Dict.set kwargs "json"
         (VDict [("orders", VStr "[]"); ("max_orders", VStr "10")]))
      self w
    /\ (forall kwargs' self',
          plain_options
            (Dict.set kwargs "json"
               (VDict [("orders", VStr "[]"); ("max_orders", VStr "10")]))
          = true ->
          _get_request_kwargs self POST (VBool true)
            (Dict.set kwargs "json"
               (VDict [("orders", VStr "[]"); ("max_orders", VStr "10")]))
          = (Ok kwargs', self') ->
          exists result self'' w',
            create_order_bulk v [] kwargs self w = (result, self'', w') /\
            events w' =
              (events w ++ [ECall (call_of POST BULK_ORDER_URL kwargs')])%list
            /\ c_uri (call_of POST BULK_ORDER_URL kwargs')
               = "https://api.bitpin.ir/api/v1/odr/orders/bulk/").
Proof.
  intros v kwargs self w. split; [reflexivity|].
  intros kwargs' self' Hp Hb.
  change (create_order_bulk v [] kwargs self w) with
    (_verb v POST BULK_ORDER_URL (Some (VBool true)) None
       (Dict.set kwargs "json"
          (VDict [("orders", VStr "[]"); ("max_orders", VStr "10")])) self w).
  rewrite verb_plain by assumption.
  cbn [signed_of]. rewrite Hb.
  unfold session_call.
  destruct (network w) as [|[r|] rest];
    do 3 eexists; (split; [reflexivity|split; reflexivity]).
Qed.

(** The empty list on the sample client. *)
Lemma C10_witness :
  create_order_bulk Blocking [] [] sample_client (fresh_world [Some new_access])
  = _post Blocking BULK_ORDER_URL (Some (VBool true)) None
      [("json", VDict [("orders", VStr "[]"); ("max_orders", VStr "10")])]
      sample_client (fresh_world [Some new_access])
  /\ exists result self'' w',
       create_order_bulk Blocking [] [] sample_client
         (fresh_world [Some new_access]) = (result, self'', w') /\
       events w' =
         [ECall (call_of POST BULK_ORDER_URL
            [("json", VDict [("orders", VStr "[]"); ("max_orders", VStr "10")]);
             ("timeout", VInt 10);
             ("headers", VDict [("Authorization", VStr "Bearer tok")])])].
Proof.
  destruct (C10_bulk_empty_list_posts Blocking [] sample_client
              (fresh_world [Some new_access])) as [H1 H2].
  split; [exact H1|].
  destruct (H2 [("json", VDict [("orders", VStr "[]"); ("max_orders", VStr "10")]);
                ("timeout", VInt 10);
                ("headers", VDict [("Authorization", VStr "Bearer tok")])]
               sample_client eq_refl eq_refl)
    as [result [self'' [w' [E1 [E2 _]]]]].
  exists result, self'', w'. split; assumption.
Defined.

(** ** The builder on requests without a body *)

Lemma get_update_absent : forall e d k,
  Dict.mem k e = false -> Dict.get (Dict.update d e) k = Dict.get d k.
Proof.
  unfold Dict.update, Dict.mem.
  induction e as [|[k1 v1] e IH]; intros d k H; simpl in *; [reflexivity|].
  destruct (String.eqb k1 k) eqn:E; [discriminate|].
  rewrite IH by assumption.
  apply get_set_other. intro; subst. now rewrite String.eqb_refl in E.
Qed.

Lemma mem_set_other : forall d k v k',
  k' <> k -> Dict.mem k' (Dict.set d k v) = Dict.mem k' d.
Proof. intros. unfold Dict.mem. now rewrite get_set_other. Qed.

Lemma defaults_step : forall self kwargs,
  match _requests_params self with
  | Some d => if truthy (VDict d) then Dict.update kwargs d else kwargs
  | None => kwargs
  end = Dict.update kwargs (configured self).
Proof.
  intros self kwargs. unfold configured.
  destruct (_requests_params self) as [[|kv d]|]; reflexivity.
Qed.

Lemma store_absent : forall self k v,
  Dict.mem k (configured self) = false -> store self k v = self.
Proof.
  intros self k v H. unfold store, owns, configured in *.
  destruct (_requests_params self) as [d|]; [|reflexivity].
  rewrite H. now rewrite andb_false_r.
Qed.

Lemma with_defaults_get_absent : forall self kwargs k,
  k <> "timeout" ->
  Dict.mem k (configured self) = false ->
  Dict.get (with_defaults self kwargs) k = Dict.get kwargs k.
Proof.
  intros self kwargs k Hk Hd. unfold with_defaults.
  rewrite get_update_absent by assumption. now apply get_set_other.
Qed.

Lemma builder_unsigned_no_data : forall self method kwargs,
  Dict.mem "data" (configured self) = false ->
  Dict.mem "data" kwargs = false ->
  _get_request_kwargs self method (VBool false) kwargs
  = (Ok (with_defaults self kwargs), self).
Proof.
  intros self method kwargs Hd Hk.
  unfold _get_request_kwargs. rewrite defaults_step.
  fold (with_defaults self kwargs).
  assert (Hget : Dict.get (with_defaults self kwargs) "data" = None).
  { rewrite with_defaults_get_absent by (assumption || discriminate).
    unfold Dict.mem in Hk. now destruct (Dict.get kwargs "data"). }
  unfold merge_per_call. rewrite Hget. cbn [m_data m_kwargs].
  rewrite store_absent by assumption. reflexivity.
Qed.

Lemma plain_set : forall kwargs k v,
  plain_options kwargs = true ->
  ~ In k ["self"; "path"; "method"; "uri"; "signed"; "version"] ->
  plain_options (Dict.set kwargs k v) = true.
Proof.
  intros kwargs k v Hp Hk. unfold plain_options.
  apply negb_true_iff. apply not_true_is_false. intro H.
  apply existsb_exists in H. destruct H as [n [Hin Hm]].
  rewrite mem_set_other in Hm by (intro; subst; contradiction).
  now rewrite (plain_absent kwargs n Hp Hin) in Hm.
Qed.

(** ** Token refresh *)

(** [refresh_access_token] once its call was made and answered. *)
Lemma refresh_sent : forall v supplied kwargs self w kwargs' self' r rest,
  plain_options kwargs = true ->
  _get_request_kwargs self POST (VBool false)
    (Dict.set kwargs "json" (refresh_body supplied self)) = (Ok kwargs', self') ->
  network w = Some r :: rest ->
  refresh_access_token v supplied kwargs self w =
  let w' := answered w (call_of POST REFRESH_TOKEN_URL kwargs') rest in
  match _handle_response v
          (response_of (call_of POST REFRESH_TOKEN_URL kwargs') r) with
  | Raise e => (Raise e, self', w')
  | Ok resp =>
      match getitem_str resp "access" with
      | Raise e => (Raise e, self', w')
      | Ok a => (Ok resp, set_access_token self' a, w')
      end
  end.
Proof.
  intros v supplied kwargs self w kwargs' self' r rest Hp Hb Hn.
  unfold refresh_access_token, bind, get_self, _post, py_or.
  unfold refresh_body in Hb.
  rewrite (verb_sent v POST REFRESH_TOKEN_URL None _ self w kwargs' self' r rest)
    by (try apply plain_set; try assumption;
        simpl; intuition discriminate).
  cbv zeta.
  destruct (_handle_response v _) as [resp|e]; [|reflexivity].
  unfold lift. destruct (getitem_str resp "access"); reflexivity.
Qed.

(** [refresh_access_token] when its call dies in the HTTP library. *)
Lemma refresh_lost : forall v supplied kwargs self w kwargs' self',
  plain_options kwargs = true ->
  _get_request_kwargs self POST (VBool false)
    (Dict.set kwargs "json" (refresh_body supplied self)) = (Ok kwargs', self') ->
  (network w = [] \/ exists rest, network w = None :: rest) ->
  refresh_access_token v supplied kwargs self w =
  (Raise ConnectionError, self',
   answered w (call_of POST REFRESH_TOKEN_URL kwargs') (tl (network w))).
Proof.
  intros v supplied kwargs self w kwargs' self' Hp Hb Hn.
  unfold refresh_access_token, bind, get_self, _post, py_or.
  unfold refresh_body in Hb.
  rewrite verb_plain
    by (apply plain_set; [assumption | simpl; intuition discriminate]).
  cbn [signed_of]. rewrite Hb. unfold session_call.
  destruct Hn as [Hn | [rest Hn]]; rewrite Hn;
    unfold emit, answered; cbn [events network tl]; rewrite ?Hn; reflexivity.
Qed.

(** An empty token, explicitly supplied, is not the token posted. *)
Lemma C9_counterexample :
  ~ spec_refresh_posts Blocking (VStr "") [] sample_client
      (fresh_world [Some new_access]).
Proof.
  intro H.
  specialize (H (refresh_call sample_client) eq_refl).
  vm_compute in H. discriminate H.
Qed.

(** C9, amended.  [refresh_access_token] posts [{refresh: t}] where [t] is
    the supplied token when that is truthy (given and not empty) and the
    stored refresh token otherwise, provided neither the caller's options
    nor the configured defaults bring a ["data"] entry and the defaults bring
    no ["json"] entry.  On an answer in 200-299 whose decoded body has an
    ["access"] field the stored access token becomes that field and the
    stored refresh token stays; on a three-digit status outside 200-299 the
    call raises [APIException] and the client is as it was. *)
Theorem C9_refresh_access_token :
  forall v supplied kwargs self w r rest,
    plain_options kwargs = true ->
    Dict.mem "data" kwargs = false ->
    Dict.mem "data" (configured self) = false ->
    Dict.mem "json" (configured self) = false ->
    network w = Some r :: rest ->
    let c := call_of POST REFRESH_TOKEN_URL
               (with_defaults self
                  (Dict.set kwargs "json" (refresh_body supplied self))) in
    Dict.get (c_kwargs c) "json" = Some (refresh_body supplied self) /\
    exists result self',
      refresh_access_token v supplied kwargs self w
        = (result, self', answered w c rest) /\
      (200 <= r_status r <= 299 ->
       forall resp a,
         r_json r = Some resp -> getitem_str resp "access" = Ok a ->
         result = Ok resp /\ access_token self' = a /\
         refresh_token self' = refresh_token self) /\
      (non_2xx (r_status r) ->
       result = Raise (APIException (r_status r) (r_text r)) /\ self' = self).
Proof.
  intros v supplied kwargs self w r rest Hp Hk Hd Hj Hn c.
  split.
  { subst c. cbn [c_kwargs call_of].
    rewrite with_defaults_get_absent by (assumption || discriminate).
    apply get_set_same. }
  assert (Hb : _get_request_kwargs self POST (VBool false)
                 (Dict.set kwargs "json" (refresh_body supplied self))
               = (Ok (with_defaults self
                        (Dict.set kwargs "json" (refresh_body supplied self))),
                  self)).
  { apply builder_unsigned_no_data; [assumption|].
    rewrite mem_set_other by discriminate. assumption. }
  rewrite (refresh_sent v supplied kwargs self w _ self r rest Hp Hb Hn).
  cbv zeta. fold c.
  assert (Hnd : lower (req_method (response_of c r)) <> "delete")
    by (subst c; cbn; discriminate).
  destruct (is_2xx (r_status r)) eqn:Es.
  - rewrite handle_2xx_other by assumption.
    unfold decode_json. cbn [json text response_of].
    destruct (r_json r) as [resp|] eqn:Ej.
    + destruct (getitem_str resp "access") as [a|e] eqn:Ea;
        do 2 eexists; (split; [reflexivity|]); split.
      * intros _ resp' a' Hr Ha. injection Hr as <-.
        rewrite Ea in Ha. injection Ha as <-. repeat split.
      * intros Hs. apply status_non_2xx in Hs. congruence.
      * intros _ resp' a' Hr Ha. injection Hr as <-. congruence.
      * intros Hs. apply status_non_2xx in Hs. congruence.
    + do 2 eexists; (split; [reflexivity|]); split.
      * intros _ resp a Hr. discriminate.
      * intros Hs. apply status_non_2xx in Hs. congruence.
  - rewrite handle_non_2xx_other by assumption.
    do 2 eexists; (split; [reflexivity|]); split.
    + intros Hs. apply status_2xx in Hs. congruence.
    + intros _. split; reflexivity.
Qed.

(** A refresh with a given token that succeeds, and one from the stored
    token that the server refuses. *)
Lemma C9_witness :
  (exists result self',
     refresh_access_token Blocking (VStr "given") [] sample_client
       (fresh_world [Some new_access])
     = (result, self',
        answered (fresh_world [Some new_access])
          (call_of POST REFRESH_TOKEN_URL
             [("json", VDict [("refresh", VStr "given")]); ("timeout", VInt 10)])
          []) /\
     result = Ok (VDict [("access", VStr "tok2")]) /\
     access_token self' = VStr "tok2" /\ refresh_token self' = VStr "ref")
  /\
  (exists result self',
     refresh_access_token NonBlocking VNone [] sample_client
       (fresh_world [Some server_error])
     = (result, self',
        answered (fresh_world [Some server_error])
          (refresh_call sample_client) []) /\
     result = Raise (APIException 500 "Internal Server Error") /\
     self' = sample_client).
Proof.
  split.
  - destruct (C9_refresh_access_token Blocking (VStr "given") [] sample_client
                (fresh_world [Some new_access]) new_access []
                eq_refl eq_refl eq_refl eq_refl eq_refl)
      as [_ [result [self' [E [Hs _]]]]].
    exists result, self'. split; [exact E|].
    apply Hs; [simpl; lia | reflexivity | reflexivity].
  - destruct (C9_refresh_access_token NonBlocking VNone [] sample_client
                (fresh_world [Some server_error]) server_error []
                eq_refl eq_refl eq_refl eq_refl eq_refl)
      as [_ [result [self' [E [_ Hf]]]]].
    exists result, self'. split; [exact E|].
    apply Hf. unfold non_2xx. simpl. lia.
Defined.

(** ** Background tasks *)

Lemma round_raise : forall (op : M pyval) interval self w e self1 w1,
  op self w = (Raise e, self1, w1) -> round op interval self w = (self1, w1).
Proof.
  intros op interval self w e self1 w1 H. unfold round, bind. now rewrite H.
Qed.

Lemma round_ok : forall (op : M pyval) interval self w x self1 w1,
  op self w = (Ok x, self1, w1) ->
  round op interval self w = (self1, emit (ESleep (interval self1)) w1).
Proof.
  intros op interval self w x self1 w1 H. unfold round, bind. now rewrite H.
Qed.

Lemma builder_refresh_plain : forall self,
  _requests_params self = None ->
  _get_request_kwargs self POST (VBool false)
    (Dict.set [] "json" (refresh_body VNone self))
  = (Ok (c_kwargs (refresh_call self)), self).
Proof.
  intros self H.
  rewrite builder_unsigned_no_data;
    try (unfold configured; rewrite H); try reflexivity.
  unfold with_defaults, configured. now rewrite H.
Qed.

Lemma refresh_round_failing : forall v self w a rest,
  _requests_params self = None ->
  failing a ->
  network w = a :: rest ->
  round (refresh_access_token v VNone []) _background_refresh_token_interval
    self w
  = (self, answered w (refresh_call self) rest).
Proof.
  intros v self w a rest Hd Ha Hn.
  pose proof (builder_refresh_plain self Hd) as Hb.
  destruct a as [r|].
  - apply round_raise with (e := APIException (r_status r) (r_text r)).
    rewrite (refresh_sent v VNone [] self w _ self r rest eq_refl Hb Hn).
    cbv zeta. rewrite handle_non_2xx_other.
    + reflexivity.
    + now apply status_non_2xx.
    + cbn. discriminate.
  - apply round_raise with (e := ConnectionError).
    rewrite (refresh_lost v VNone [] self w _ self eq_refl Hb)
      by (right; now exists rest).
    rewrite Hn. reflexivity.
Qed.

Lemma refresh_round_ok : forall v self w r rest resp a,
  _requests_params self = None ->
  200 <= r_status r <= 299 ->
  r_json r = Some resp ->
  getitem_str resp "access" = Ok a ->
  network w = Some r :: rest ->
  round (refresh_access_token v VNone []) _background_refresh_token_interval
    self w
  = (set_access_token self a,
     emit (ESleep (_background_refresh_token_interval self))
       (answered w (refresh_call self) rest)).
Proof.
  intros v self w r rest resp a Hd Hs Hj Ha Hn.
  pose proof (builder_refresh_plain self Hd) as Hb.
  assert (Hop : refresh_access_token v VNone [] self w
                = (Ok resp, set_access_token self a,
                   answered w (refresh_call self) rest)).
  { rewrite (refresh_sent v VNone [] self w _ self r rest eq_refl Hb Hn).
    cbv zeta. rewrite handle_2xx_other.
    - unfold decode_json. cbn [json response_of]. rewrite Hj, Ha. reflexivity.
    - now apply status_2xx.
    - cbn. discriminate. }
  rewrite (round_ok _ _background_refresh_token_interval _ _ _ _ _ Hop).
  reflexivity.
Qed.

(** C7.  A round of a background task whose operation raises ends there,
    with no sleep, and the next round starts from the state the failure
    left; a round whose operation returns ends with one sleep of the
    configured interval.  Both tasks are made of such rounds.  When the
    refresh fails twice and then succeeds, the trace of the first three
    rounds is three calls and, after the third, one sleep of the interval. *)
Theorem C7_background_rounds :
  forall v : variant,
    (forall (op : M pyval) interval self w,
       (forall e self1 w1,
          op self w = (Raise e, self1, w1) ->
          round op interval self w = (self1, w1)) /\
       (forall x self1 w1,
          op self w = (Ok x, self1, w1) ->
          round op interval self w
          = (self1, emit (ESleep (interval self1)) w1)))
    /\ (forall n self w,
          _background_relogin_task v (S n) self w =
          let '(self1, w1) :=
            round (login v []) _background_relogin_interval self w in
          _background_relogin_task v n self1 w1)
    /\ (forall n self w,
          _background_refresh_token_task v (S n) self w =
          let '(self1, w1) :=
            round (refresh_access_token v VNone [])
              _background_refresh_token_interval self w in
          _background_refresh_token_task v n self1 w1)
    /\ (forall self a1 a2 r3 resp a,
          _requests_params self = None ->
          failing a1 -> failing a2 ->
          200 <= r_status r3 <= 299 ->
          r_json r3 = Some resp ->
          getitem_str resp "access" = Ok a ->
          events (snd (_background_refresh_token_task v 3 self
                         (fresh_world [a1; a2; Some r3])))
          = [ECall (refresh_call self); ECall (refresh_call self);
             ECall (refresh_call self);
             ESleep (_background_refresh_token_interval self)]).
Proof.
  intros v. repeat split.
  - intros e self1 w1. apply round_raise.
  - intros x self1 w1. apply round_ok.
  - intros self a1 a2 r3 resp a Hd H1 H2 Hs Hj Ha.
    unfold _background_refresh_token_task. cbn [rounds].
    set (w0 := fresh_world [a1; a2; Some r3]).
    rewrite (refresh_round_failing v self w0 a1 [a2; Some r3] Hd H1 eq_refl).
    set (w1 := answered w0 (refresh_call self) [a2; Some r3]).
    rewrite (refresh_round_failing v self w1 a2 [Some r3] Hd H2 eq_refl).
    set (w2 := answered w1 (refresh_call self) [Some r3]).
    rewrite (refresh_round_ok v self w2 r3 [] resp a Hd Hs Hj Ha eq_refl).
    reflexivity.
Qed.

(** A server error, a lost connection, then a new access token. *)
Lemma C7_witness :
  events (snd (_background_refresh_token_task Blocking 3 sample_client
                 (fresh_world [Some server_error; None; Some new_access])))
  = [ECall (refresh_call sample_client); ECall (refresh_call sample_client);
     ECall (refresh_call sample_client); ESleep 780].
Proof.
  destruct (C7_background_rounds Blocking) as [_ [_ [_ H]]].
  apply (H sample_client (Some server_error) None new_access
           (VDict [("access", VStr "tok2")]) (VStr "tok2")).
  - reflexivity.
  - unfold failing, non_2xx. simpl. lia.
  - exact I.
  - simpl. lia.
  - reflexivity.
  - reflexivity.
Defined.

(** ** The request builder *)

(** C4, at [get_user_orders]-like filter data.  For the GET body
    [{symbol: "BTC_IRT", side: "buy"}] the builder does drop the body, but the
    query string it writes is ["s=y&s=i"]: the loop runs over the keys of the
    mapping and pairs the first two characters of each, where the
    specification has
    ["symbol=BTC_IRT&side=buy"].  A key of one character raises. *)
Theorem C4_get_body_query_pairs_key_characters :
  _get_request_kwargs sample_client GET (VBool false)
    [("data", VDict [("symbol", VStr "BTC_IRT"); ("side", VStr "buy")])]
  = (Ok [("timeout", VInt 10); ("params", VStr "s=y&s=i")], sample_client)
  /\ fst (_get_request_kwargs sample_client GET (VBool false)
            [("data", VDict [("q", VStr "BTC")])])
     = Raise IndexError.
Proof. split; vm_compute; reflexivity. Qed.

Lemma builder_steps : forall self method signed kwargs kwargs' self',
  _get_request_kwargs self method signed kwargs = (Ok kwargs', self') ->
  exists m,
    merge_per_call (with_defaults self kwargs) = Ok m /\
    ((signed = VBool true /\
      exists signed_kwargs,
        sign self (m_kwargs m) = Ok signed_kwargs /\
        body_to_query method (m_data m) signed_kwargs = Ok kwargs')
     \/ (signed <> VBool true /\
         body_to_query method (m_data m) (m_kwargs m) = Ok kwargs')).
Proof.
  intros self method signed kwargs kwargs' self' H.
  unfold _get_request_kwargs in H. rewrite defaults_step in H.
  fold (with_defaults self kwargs) in H.
  destruct (merge_per_call (with_defaults self kwargs)) as [m|e];
    [|discriminate].
  exists m. split; [reflexivity|].
  destruct signed as [|[|]| | | |];
    try (right; split; [discriminate|]; now injection H as H _).
  left. split; [reflexivity|].
  destruct (sign self (m_kwargs m)) as [kw|e]; [|discriminate].
  exists kw. split; [reflexivity|]. now injection H as H _.
Qed.

Lemma with_defaults_get : forall self kwargs k,
  wf_dict (configured self) = true ->
  Dict.get (with_defaults self kwargs) k =
  match Dict.get (configured self) k with
  | Some v => Some v
  | None =>
      if String.eqb k "timeout" then Some REQUEST_TIMEOUT
      else Dict.get kwargs k
  end.
Proof.
  intros self kwargs k Hwf. unfold with_defaults.
  rewrite get_update by assumption.
  destruct (Dict.get (configured self) k); [reflexivity|].
  destruct (String.eqb k "timeout") eqn:E.
  - apply String.eqb_eq in E. subst k. apply get_set_same.
  - apply get_set_other. intro; subst. discriminate.
Qed.

Lemma merge_get : forall kwargs m k,
  merge_per_call kwargs = Ok m ->
  wf_dict (nested kwargs) = true ->
  k <> "data" ->
  Dict.get (m_kwargs m) k =
  match Dict.get (nested kwargs) k with
  | Some v => Some v
  | None => Dict.get kwargs k
  end.
Proof.
  intros kwargs m k H Hwf Hk. unfold merge_per_call, nested in *.
  destruct (Dict.get kwargs "data") as [[| | | | |dd]|];
    try (injection H as <-; reflexivity).
  destruct (truthy (VDict dd)) eqn:Et.
  - destruct (Dict.get dd "requests_params") as [[| | | | |r]|];
      try discriminate; try (injection H as <-; reflexivity).
    destruct (Dict.get r "data") as [[| | | | |x]|]; try discriminate.
    + destruct (Dict.mem "requests_params" x); [|discriminate].
      injection H as <-. cbn [m_kwargs].
      rewrite get_set_other by assumption. now apply get_update.
    + injection H as <-. cbn [m_kwargs].
      rewrite get_set_other by assumption. now apply get_update.
  - destruct dd; [|discriminate]. injection H as <-. reflexivity.
Qed.

Lemma sign_get : forall self kwargs kwargs' k,
  sign self kwargs = Ok kwargs' ->
  k <> "headers" ->
  Dict.get kwargs' k = Dict.get kwargs k.
Proof.
  intros self kwargs kwargs' k H Hk. unfold sign in H.
  destruct (match Dict.get kwargs "headers" with
            | Some v => v | None => VDict [] end); try discriminate.
  injection H as <-. now apply get_set_other.
Qed.

Lemma sign_headers : forall self kwargs kwargs',
  sign self kwargs = Ok kwargs' ->
  Dict.get kwargs' "headers" =
  Some (VDict (Dict.set
                 match Dict.get kwargs "headers" with
                 | Some (VDict h) => h
                 | _ => []
                 end
                 "Authorization"
                 (VStr ("Bearer " ++ str (access_token self))))).
Proof.
  intros self kwargs kwargs' H. unfold sign in H.
  destruct (Dict.get kwargs "headers") as [[| | | | |h]|]; try discriminate;
    injection H as <-; apply get_set_same.
Qed.

Lemma method_value_get : forall method,
  String.eqb (method_value method) "get" = true -> method = GET.
Proof. destruct method; simpl; intros; congruence. Qed.

Lemma body_get : forall method data kwargs kwargs' k,
  body_to_query method data kwargs = Ok kwargs' ->
  k <> "data" ->
  (method = GET -> k <> "params") ->
  Dict.get kwargs' k = Dict.get kwargs k.
Proof.
  intros method data kwargs kwargs' k H Hd Hp. unfold body_to_query in H.
  destruct (truthy data && String.eqb (method_value method) "get")%bool eqn:E.
  - apply andb_prop in E. destruct E as [_ E].
    apply method_value_get in E. specialize (Hp E).
    destruct (getitem_str (VDict kwargs) "data") as [body|]; [|discriminate].
    cbn [rbind] in H.
    destruct (py_iter body) as [items|]; [|discriminate].
    cbn [rbind] in H.
    destruct (mapM query_pair items) as [pairs|]; [|discriminate].
    cbn [rbind] in H. injection H as <-.
    rewrite get_del_other by assumption. now apply get_set_other.
  - now injection H as <-.
Qed.

Lemma merged_get_steps : forall self kwargs m k,
  wf_dict (configured self) = true ->
  wf_dict (nested (with_defaults self kwargs)) = true ->
  merge_per_call (with_defaults self kwargs) = Ok m ->
  k <> "data" ->
  Dict.get (m_kwargs m) k = merged_get self kwargs k.
Proof.
  intros self kwargs m k Hwd Hwn Hm Hk.
  rewrite (merge_get _ m k Hm Hwn Hk). unfold merged_get.
  destruct (Dict.get (nested (with_defaults self kwargs)) k); [reflexivity|].
  now apply with_defaults_get.
Qed.

(** A configured [verify] beats the caller's, and the caller's [timeout]
    is replaced by the fixed one. *)
Lemma C3_counterexample :
  ~ spec_caller_wins (client_with [("verify", VBool false)]) POST (VBool false)
      [("verify", VBool true); ("timeout", VInt 3)].
Proof.
  intro H.
  specialize (H [("verify", VBool false); ("timeout", VInt 10)]
                (client_with [("verify", VBool false)]) eq_refl
                "timeout" (VInt 3) eq_refl).
  vm_compute in H. discriminate H.
Qed.

(** C3, amended.  Under every key but ["data"], ["params"] of a GET and
    ["headers"] of a signed request, which later steps rewrite, the finalized
    options hold the caller's keyword option, replaced by the fixed timeout
    under ["timeout"], replaced by the configured default if there is one,
    replaced by the entry of the [requests_params] mapping nested in a
    dictionary [data] if there is one.  So a configured default wins over the
    caller's keyword option, and the fixed timeout gives way to the
    configured defaults and to the nested mapping, not to a [timeout]
    keyword. *)
Theorem C3_merge_order :
  forall self method signed kwargs kwargs' self' k,
    wf_dict (configured self) = true ->
    wf_dict (nested (with_defaults self kwargs)) = true ->
    _get_request_kwargs self method signed kwargs = (Ok kwargs', self') ->
    k <> "data" ->
    (method = GET -> k <> "params") ->
    (signed = VBool true -> k <> "headers") ->
    Dict.get kwargs' k =
    match Dict.get (nested (with_defaults self kwargs)) k with
    | Some v => Some v
    | None =>
        match Dict.get (configured self) k with
        | Some v => Some v
        | None =>
            if String.eqb k "timeout" then Some REQUEST_TIMEOUT
            else Dict.get kwargs k
        end
    end.
Proof.
  intros self method signed kwargs kwargs' self' k Hwd Hwn Hb Hd Hp Hh.
  apply builder_steps in Hb.
  destruct Hb as [m [Hm [[Hs [kw [Hsign Hq]]] | [Hs Hq]]]].
  - rewrite (body_get _ _ _ _ k Hq Hd Hp).
    rewrite (sign_get _ _ _ k Hsign (Hh Hs)).
    now apply merged_get_steps.
  - rewrite (body_get _ _ _ _ k Hq Hd Hp).
    now apply merged_get_steps.
Qed.

(** The options of the sample call under [verify] and [timeout]. *)
Lemma C3_witness :
  Dict.get [("verify", VBool false); ("timeout", VInt 10)] "verify"
    = Some (VBool false)
  /\ Dict.get [("verify", VBool false); ("timeout", VInt 10)] "timeout"
    = Some (VInt 10).
Proof.
  split.
  - apply (C3_merge_order (client_with [("verify", VBool false)]) POST
             (VBool false) [("verify", VBool true); ("timeout", VInt 3)]
             [("verify", VBool false); ("timeout", VInt 10)]
             (client_with [("verify", VBool false)]) "verify");
      try reflexivity; intros; discriminate.
  - apply (C3_merge_order (client_with [("verify", VBool false)]) POST
             (VBool false) [("verify", VBool true); ("timeout", VInt 3)]
             [("verify", VBool false); ("timeout", VInt 10)]
             (client_with [("verify", VBool false)]) "timeout");
      try reflexivity; intros; discriminate.
Defined.

(** With configured default headers, the header the caller passed is not in
    the finalized headers. *)
Lemma C6_counterexample :
  ~ spec_bearer_keeps_caller_headers
      (client_with [("headers", VDict [("Accept-Language", VStr "fa")])])
      POST [("headers", VDict [("X-Request-Id", VStr "7")])].
Proof.
  intro H.
  destruct (H [("headers",
                VDict [("Accept-Language", VStr "fa");
                       ("Authorization", VStr "Bearer tok")]);
               ("timeout", VInt 10)]
              (client_with
                 [("headers",
                   VDict [("Accept-Language", VStr "fa");
                          ("Authorization", VStr "Bearer tok")])])
              eq_refl)
    as [h [Hh [_ Hkeep]]].
  injection Hh as <-.
  specialize (Hkeep [("X-Request-Id", VStr "7")] "X-Request-Id" (VStr "7")
                eq_refl).
  assert (Hne : "X-Request-Id" <> "Authorization") by discriminate.
  specialize (Hkeep Hne eq_refl).
  vm_compute in Hkeep. discriminate Hkeep.
Qed.

(** C6, amended.  The finalized headers of a signed request hold
    ["Authorization"] with ["Bearer "] followed by the stored access token,
    whatever was there, and are otherwise the header mapping the merge left:
    the caller's, unless the configured defaults or the nested per-call
    [requests_params] bring a ["headers"] entry, which then stands in its
    place. *)
Theorem C6_signed_headers :
  forall self method kwargs kwargs' self',
    wf_dict (configured self) = true ->
    wf_dict (nested (with_defaults self kwargs)) = true ->
    _get_request_kwargs self method (VBool true) kwargs = (Ok kwargs', self') ->
    exists h,
      Dict.get kwargs' "headers" = Some (VDict h) /\
      Dict.get h "Authorization"
        = Some (VStr ("Bearer " ++ str (access_token self))) /\
      (forall k, k <> "Authorization" ->
                 Dict.get h k = Dict.get (merged_headers self kwargs) k) /\
      (Dict.mem "headers" (configured self) = false ->
       Dict.mem "headers" (nested (with_defaults self kwargs)) = false ->
       forall ch k v,
         Dict.get kwargs "headers" = Some (VDict ch) ->
         k <> "Authorization" ->
         Dict.get ch k = Some v -> Dict.get h k = Some v).
Proof.
  intros self method kwargs kwargs' self' Hwd Hwn Hb.
  apply builder_steps in Hb.
  destruct Hb as [m [Hm [[_ [kw [Hsign Hq]]] | [Hs _]]]]; [|congruence].
  assert (Hmh : Dict.get (m_kwargs m) "headers"
                = merged_get self kwargs "headers")
    by (apply merged_get_steps; assumption || discriminate).
  pose proof (sign_headers _ _ _ Hsign) as Hh. rewrite Hmh in Hh.
  fold (merged_headers self kwargs) in Hh.
  eexists. split; [|split; [|split]].
  - rewrite (body_get _ _ _ _ "headers" Hq); [exact Hh| |]; intros; discriminate.
  - apply get_set_same.
  - intros k Hk. now apply get_set_other.
  - intros Hnd Hnn ch k v Hc Hk Hv.
    rewrite get_set_other by assumption.
    unfold merged_headers, merged_get.
    unfold Dict.mem in Hnd, Hnn.
    destruct (Dict.get (nested (with_defaults self kwargs)) "headers");
      [discriminate|].
    destruct (Dict.get (configured self) "headers"); [discriminate|].
    cbn [String.eqb Ascii.eqb Bool.eqb]. rewrite Hc. exact Hv.
Qed.

(** A signed call that brings a stale [Authorization] and one more header. *)
Lemma C6_witness :
  exists h,
    Dict.get [("headers",
               VDict [("X-Request-Id", VStr "7");
                      ("Authorization", VStr "Bearer tok")]);
              ("timeout", VInt 10)] "headers" = Some (VDict h) /\
    Dict.get h "Authorization" = Some (VStr "Bearer tok") /\
    Dict.get h "X-Request-Id" = Some (VStr "7").
Proof.
  destruct (C6_signed_headers sample_client POST
              [("headers",
                VDict [("X-Request-Id", VStr "7");
                       ("Authorization", VStr "Bearer stale")])]
              [("headers",
                VDict [("X-Request-Id", VStr "7");
                       ("Authorization", VStr "Bearer tok")]);
               ("timeout", VInt 10)]
              sample_client eq_refl eq_refl eq_refl)
    as [h [Hh [Ha [_ Hkeep]]]].
  exists h. split; [exact Hh|]. split; [exact Ha|].
  apply (Hkeep eq_refl eq_refl
           [("X-Request-Id", VStr "7"); ("Authorization", VStr "Bearer stale")]);
    [reflexivity | discriminate | reflexivity].
Defined.

(** ** Further properties of the response handlers *)





(** X3.  A cancellation the exchange refuses (three-digit status outside
    200-299): the blocking [cancel_order] returns the success payload for the
    order, the non-blocking one raises [APIException] with the status and the
    body. *)
Theorem refused_cancellation :
  forall order_id kwargs self w kwargs' self' r rest,
    plain_options kwargs = true ->
    _get_request_kwargs self DELETE (VBool true) kwargs = (Ok kwargs', self') ->
    network w = Some r :: rest ->
    non_2xx (r_status r) ->
    cancel_order Blocking order_id kwargs self w =
      (Ok (cancel_payload order_id), self',
       answered w (call_of DELETE (ORDERS_URL ++ order_id ++ "/") kwargs') rest)
    /\
    cancel_order NonBlocking order_id kwargs self w =
      (Raise (APIException (r_status r) (r_text r)), self',
       answered w (call_of DELETE (ORDERS_URL ++ order_id ++ "/") kwargs') rest).
Proof.
  intros order_id kwargs self w kwargs' self' r rest Hp Hb Hn Hs.
  apply status_non_2xx in Hs.
  unfold cancel_order, bind, _delete. split.
  - rewrite (verb_sent Blocking DELETE _ (Some (VBool true)) kwargs self w
               kwargs' self' r rest Hp Hb Hn).
    cbn [_handle_response].
    rewrite handle_non_2xx_delete_blocking
      by (try apply lower_verb; assumption).
    destruct (path_url_segment _
                (path_url_starts
                   (call_of DELETE (ORDERS_URL ++ order_id ++ "/") kwargs') r))
      as [id Hid].
    rewrite Hid. reflexivity.
  - rewrite (verb_sent NonBlocking DELETE _ (Some (VBool true)) kwargs self w
               kwargs' self' r rest Hp Hb Hn).
    cbn [_handle_response].
    rewrite handle_non_2xx_nonblocking by assumption. reflexivity.
Qed.

Lemma refused_cancellation_witness :
  cancel_order Blocking "42" [] sample_client (fresh_world [Some not_found])
  = (Ok (cancel_payload "42"), sample_client,
     answered (fresh_world [Some not_found])
       (call_of DELETE "odr/orders/42/"
          [("timeout", VInt 10);
           ("headers", VDict [("Authorization", VStr "Bearer tok")])]) [])
  /\
  cancel_order NonBlocking "42" [] sample_client (fresh_world [Some not_found])
  = (Raise (APIException 404 "{}"), sample_client,
     answered (fresh_world [Some not_found])
       (call_of DELETE "odr/orders/42/"
          [("timeout", VInt 10);
           ("headers", VDict [("Authorization", VStr "Bearer tok")])]) []).
Proof.
  apply (refused_cancellation "42" [] sample_client
           (fresh_world [Some not_found])
           [("timeout", VInt 10);
            ("headers", VDict [("Authorization", VStr "Bearer tok")])]
           sample_client not_found []).
  - reflexivity.
  - reflexivity.
  - reflexivity.
  - unfold non_2xx. simpl. lia.
Defined.

(** X4.  [cancel_order_bulk] never hands back what the exchange reports for
    a bulk cancellation on the non-blocking client: answered with a status in
    200-299 it returns [{status: "success", id: "bulk"}], whatever the body. *)
Theorem bulk_cancellation_nonblocking :
  forall ids identifiers kwargs self w kwargs' self' r rest,
    plain_options kwargs = true ->
    _get_request_kwargs self DELETE (VBool true)
      (Dict.set kwargs "json"
         (VDict (stringified [("ids", ids); ("identifiers", identifiers)])))
      = (Ok kwargs', self') ->
    network w = Some r :: rest ->
    200 <= r_status r <= 299 ->
    cancel_order_bulk NonBlocking ids identifiers kwargs self w =
    (Ok (cancel_payload "bulk"), self',
     answered w (call_of DELETE BULK_ORDER_URL kwargs') rest).
Proof.
  intros ids identifiers kwargs self w kwargs' self' r rest Hp Hb Hn Hs.
  unfold cancel_order_bulk, _delete.
  rewrite (verb_sent NonBlocking DELETE _ (Some (VBool true)) _ self w
             kwargs' self' r rest)
    by (try apply plain_set; try assumption; simpl; intuition discriminate).
  cbn [_handle_response].
  rewrite handle_2xx_delete_nonblocking
    by (try apply status_2xx; try apply lower_verb; assumption).
  reflexivity.
Qed.

Lemma bulk_cancellation_nonblocking_witness :
  cancel_order_bulk NonBlocking (VList [VStr "7"; VStr "8"]) VNone []
    sample_client (fresh_world [Some new_access])
  = (Ok (cancel_payload "bulk"), sample_client,
     answered (fresh_world [Some new_access])
       (call_of DELETE BULK_ORDER_URL
          [("json", VDict [("ids", VStr "['7', '8']")]);
           ("timeout", VInt 10);
           ("headers", VDict [("Authorization", VStr "Bearer tok")])]) []).
Proof.
  apply (bulk_cancellation_nonblocking (VList [VStr "7"; VStr "8"]) VNone []
           sample_client (fresh_world [Some new_access])
           [("json", VDict [("ids", VStr "['7', '8']")]);
            ("timeout", VInt 10);
            ("headers", VDict [("Authorization", VStr "Bearer tok")])]
           sample_client new_access []).
  - reflexivity.
  - reflexivity.
  - reflexivity.
  - simpl. lia.
Defined.

(** X5.  On the blocking client a bulk cancellation the exchange refuses
    comes back as [{status: "success", id: "bulk"}]; no exception is raised.
    The finalized options carry no [params], so the path the handler splits
    ends with the endpoint. *)
Theorem bulk_cancellation_blocking_refused :
  forall ids identifiers kwargs self w kwargs' self' r rest,
    plain_options kwargs = true ->
    _get_request_kwargs self DELETE (VBool true)
      (Dict.set kwargs "json"
         (VDict (stringified [("ids", ids); ("identifiers", identifiers)])))
      = (Ok kwargs', self') ->
    Dict.mem "params" kwargs' = false ->
    network w = Some r :: rest ->
    non_2xx (r_status r) ->
    cancel_order_bulk Blocking ids identifiers kwargs self w =
    (Ok (cancel_payload "bulk"), self',
     answered w (call_of DELETE BULK_ORDER_URL kwargs') rest).
Proof.
  intros ids identifiers kwargs self w kwargs' self' r rest Hp Hb _ Hn Hs.
  unfold cancel_order_bulk, _delete.
  rewrite (verb_sent Blocking DELETE _ (Some (VBool true)) _ self w
             kwargs' self' r rest)
    by (try apply plain_set; try assumption; simpl; intuition discriminate).
  cbn [_handle_response].
  rewrite handle_non_2xx_delete_blocking
    by (try apply status_non_2xx; try apply lower_verb; assumption).
  reflexivity.
Qed.

Lemma bulk_cancellation_blocking_refused_witness :
  cancel_order_bulk Blocking VNone (VList [VStr "a"]) []
    sample_client (fresh_world [Some server_error])
  = (Ok (cancel_payload "bulk"), sample_client,
     answered (fresh_world [Some server_error])
       (call_of DELETE BULK_ORDER_URL
          [("json", VDict [("identifiers", VStr "['a']")]);
           ("timeout", VInt 10);
           ("headers", VDict [("Authorization", VStr "Bearer tok")])]) []).
Proof.
  apply (bulk_cancellation_blocking_refused VNone (VList [VStr "a"]) []
           sample_client (fresh_world [Some server_error])
           [("json", VDict [("identifiers", VStr "['a']")]);
            ("timeout", VInt 10);
            ("headers", VDict [("Authorization", VStr "Bearer tok")])]
           sample_client server_error []).
  - reflexivity.
  - reflexivity.
  - reflexivity.
  - reflexivity.
  - unfold non_2xx. simpl. lia.
Defined.

(** ** Login *)

(** [login] once its call was made and answered. *)
Lemma login_sent : forall v kwargs self w kwargs' self' r rest,
  plain_options kwargs = true ->
  _get_request_kwargs self POST (VBool false)
    (Dict.set kwargs "json"
       (VDict [("api_key", api_key self); ("secret_key", api_secret self)]))
    = (Ok kwargs', self') ->
  network w = Some r :: rest ->
  login v kwargs self w =
  let w' := answered w (call_of POST LOGIN_URL kwargs') rest in
  match _handle_response v (response_of (call_of POST LOGIN_URL kwargs') r) with
  | Raise e => (Raise e, self', w')
  | Ok resp =>
      match getitem_str resp "refresh" with
      | Raise e => (Raise e, self', w')
      | Ok refresh =>
          match getitem_str resp "access" with
          | Raise e => (Raise e, set_refresh_token self' refresh, w')
          | Ok access =>
              (Ok resp,
               set_access_token (set_refresh_token self' refresh) access, w')
          end
      end
  end.
Proof.
  intros v kwargs self w kwargs' self' r rest Hp Hb Hn.
  unfold login, bind, get_self, _post.
  rewrite (verb_sent v POST LOGIN_URL None _ self w kwargs' self' r rest)
    by (try apply plain_set; try assumption; simpl; intuition discriminate).
  cbv zeta.
  destruct (_handle_response v _) as [resp|e]; [|reflexivity].
  unfold lift, assign_refresh_token, assign_access_token, ret.
  destruct (getitem_str resp "refresh"); [|reflexivity].
  destruct (getitem_str resp "access"); reflexivity.
Qed.

(** [login] when its call dies in the HTTP library. *)
Lemma login_lost : forall v kwargs self w kwargs' self',
  plain_options kwargs = true ->
  _get_request_kwargs self POST (VBool false)
    (Dict.set kwargs "json"
       (VDict [("api_key", api_key self); ("secret_key", api_secret self)]))
    = (Ok kwargs', self') ->
  (network w = [] \/ exists rest, network w = None :: rest) ->
  login v kwargs self w =
  (Raise ConnectionError, self',
   answered w (call_of POST LOGIN_URL kwargs') (tl (network w))).
Proof.
  intros v kwargs self w kwargs' self' Hp Hb Hn.
  unfold login, bind, get_self, _post.
  rewrite verb_plain
    by (apply plain_set; [assumption | simpl; intuition discriminate]).
  cbn [signed_of]. rewrite Hb. unfold session_call.
  destruct Hn as [Hn | [rest Hn]]; rewrite Hn;
    unfold emit, answered; cbn [events network tl]; rewrite ?Hn; reflexivity.
Qed.

(** X6.  A login that is sent and answered with a status in 200-299 and a
    body holding ["refresh"] and ["access"] stores both tokens, changes
    nothing else of the client, and returns the decoded body. *)
Theorem login_stores_both_tokens :
  forall v kwargs self w kwargs' self' r rest resp refresh access,
    plain_options kwargs = true ->
    _get_request_kwargs self POST (VBool false)
      (Dict.set kwargs "json"
         (VDict [("api_key", api_key self); ("secret_key", api_secret self)]))
      = (Ok kwargs', self') ->
    network w = Some r :: rest ->
    200 <= r_status r <= 299 ->
    r_json r = Some resp ->
    getitem_str resp "refresh" = Ok refresh ->
    getitem_str resp "access" = Ok access ->
    exists self'',
      login v kwargs self w =
        (Ok resp, self'', answered w (call_of POST LOGIN_URL kwargs') rest) /\
      refresh_token self'' = refresh /\
      access_token self'' = access /\
      api_key self'' = api_key self' /\
      api_secret self'' = api_secret self' /\
      _requests_params self'' = _requests_params self'.
Proof.
  intros v kwargs self w kwargs' self' r rest resp refresh access
         Hp Hb Hn Hs Hj Hr Ha.
  rewrite (login_sent v kwargs self w kwargs' self' r rest Hp Hb Hn).
  cbv zeta. rewrite handle_2xx_other.
  - unfold decode_json. cbn [json response_of]. rewrite Hj, Hr, Ha.
    eexists. split; [reflexivity|]. repeat split.
  - now apply status_2xx.
  - cbn. discriminate.
Qed.

Lemma login_stores_both_tokens_witness :
  exists self'',
    login Blocking [] sample_client
      (fresh_world
         [Some {| r_status := 200; r_text := "";
                  r_json := Some (VDict [("refresh", VStr "r2");
                                         ("access", VStr "a2")]) |}])
    = (Ok (VDict [("refresh", VStr "r2"); ("access", VStr "a2")]), self'',
       answered
         (fresh_world
            [Some {| r_status := 200; r_text := "";
                     r_json := Some (VDict [("refresh", VStr "r2");
                                            ("access", VStr "a2")]) |}])
         (login_call sample_client) []) /\
    refresh_token self'' = VStr "r2" /\ access_token self'' = VStr "a2".
Proof.
  destruct (login_stores_both_tokens Blocking [] sample_client
              (fresh_world
                 [Some {| r_status := 200; r_text := "";
                          r_json := Some (VDict [("refresh", VStr "r2");
                                                 ("access", VStr "a2")]) |}])
              (c_kwargs (login_call sample_client)) sample_client
              {| r_status := 200; r_text := "";
                 r_json := Some (VDict [("refresh", VStr "r2");
                                        ("access", VStr "a2")]) |}
              [] (VDict [("refresh", VStr "r2"); ("access", VStr "a2")])
              (VStr "r2") (VStr "a2"))
    as [self'' [E [Hr [Ha _]]]];
    try reflexivity; [simpl; lia|].
  exists self''. repeat split; assumption.
Defined.

(** X7.  [login] is not all-or-nothing: when the decoded body of a
    successful answer holds ["refresh"] but reading ["access"] raises (the
    key is missing), the exception leaves [login] after the stored refresh
    token was replaced; the stored access token is the old one. *)
Theorem login_half_done :
  forall v kwargs self w kwargs' self' r rest resp refresh e,
    plain_options kwargs = true ->
    _get_request_kwargs self POST (VBool false)
      (Dict.set kwargs "json"
         (VDict [("api_key", api_key self); ("secret_key", api_secret self)]))
      = (Ok kwargs', self') ->
    network w = Some r :: rest ->
    200 <= r_status r <= 299 ->
    r_json r = Some resp ->
    getitem_str resp "refresh" = Ok refresh ->
    getitem_str resp "access" = Raise e ->
    exists self'',
      login v kwargs self w =
        (Raise e, self'', answered w (call_of POST LOGIN_URL kwargs') rest) /\
      refresh_token self'' = refresh /\
      access_token self'' = access_token self'.
Proof.
  intros v kwargs self w kwargs' self' r rest resp refresh e
         Hp Hb Hn Hs Hj Hr Ha.
  rewrite (login_sent v kwargs self w kwargs' self' r rest Hp Hb Hn).
  cbv zeta. rewrite handle_2xx_other.
  - unfold decode_json. cbn [json response_of]. rewrite Hj, Hr, Ha.
    eexists. split; [reflexivity|]. split; reflexivity.
  - now apply status_2xx.
  - cbn. discriminate.
Qed.

Lemma login_half_done_witness :
  exists self'',
    login NonBlocking [] sample_client
      (fresh_world
         [Some {| r_status := 200; r_text := "";
                  r_json := Some (VDict [("refresh", VStr "r2")]) |}])
    = (Raise (KeyError "access"), self'',
       answered
         (fresh_world
            [Some {| r_status := 200; r_text := "";
                     r_json := Some (VDict [("refresh", VStr "r2")]) |}])
         (login_call sample_client) []) /\
    refresh_token self'' = VStr "r2" /\ access_token self'' = VStr "tok".
Proof.
  apply (login_half_done NonBlocking [] sample_client
           (fresh_world
              [Some {| r_status := 200; r_text := "";
                       r_json := Some (VDict [("refresh", VStr "r2")]) |}])
           (c_kwargs (login_call sample_client)) sample_client
           {| r_status := 200; r_text := "";
              r_json := Some (VDict [("refresh", VStr "r2")]) |}
           [] (VDict [("refresh", VStr "r2")]) (VStr "r2") (KeyError "access"));
    try reflexivity.
  simpl. lia.
Defined.

(** ** Background tasks that keep failing *)

Lemma rounds_all_failing : forall (op : M pyval) interval c self,
  (forall w,
     match network w with [] => True | a :: _ => failing a end ->
     round op interval self w = (self, answered w c (tl (network w)))) ->
  forall n w,
    Forall failing (network w) ->
    rounds n op interval self w
    = (self, {| events := events w ++ repeat (ECall c) n;
                network := skipn n (network w) |}).
Proof.
  intros op interval c self Hstep.
  induction n as [|n IH]; intros w Hall.
  - destruct w as [ev net]. cbn. now rewrite app_nil_r.
  - cbn [rounds]. rewrite Hstep.
    + rewrite IH.
      * cbn [answered events network repeat].
        rewrite <- app_assoc. cbn [app].
        destruct (network w); cbn [tl skipn]; [|reflexivity].
        now rewrite skipn_nil.
      * cbn [answered network].
        destruct (network w) as [|a rest]; [constructor|].
        now inversion Hall.
    + destruct (network w) as [|a rest]; [exact I|]. now inversion Hall.
Qed.

Lemma refresh_round_step : forall v self w,
  _requests_params self = None ->
  match network w with [] => True | a :: _ => failing a end ->
  round (refresh_access_token v VNone []) _background_refresh_token_interval
    self w
  = (self, answered w (refresh_call self) (tl (network w))).
Proof.
  intros v self w Hd Hw.
  destruct (network w) as [|a rest] eqn:Hn.
  - apply round_raise with (e := ConnectionError).
    rewrite (refresh_lost v VNone [] self w _ self eq_refl
               (builder_refresh_plain self Hd))
      by (now left).
    now rewrite Hn.
  - now apply refresh_round_failing with (a := a).
Qed.

Lemma builder_login_plain : forall self,
  _requests_params self = None ->
  _get_request_kwargs self POST (VBool false)
    (Dict.set [] "json"
       (VDict [("api_key", api_key self); ("secret_key", api_secret self)]))
  = (Ok (c_kwargs (login_call self)), self).
Proof.
  intros self H.
  rewrite builder_unsigned_no_data;
    try (unfold configured; rewrite H); try reflexivity.
  unfold with_defaults, configured. now rewrite H.
Qed.

Lemma login_round_step : forall v self w,
  _requests_params self = None ->
  match network w with [] => True | a :: _ => failing a end ->
  round (login v []) _background_relogin_interval self w
  = (self, answered w (login_call self) (tl (network w))).
Proof.
  intros v self w Hd Hw.
  pose proof (builder_login_plain self Hd) as Hb.
  destruct (network w) as [|[r|] rest] eqn:Hn.
  - apply round_raise with (e := ConnectionError).
    rewrite (login_lost v [] self w _ self eq_refl Hb) by (now left).
    now rewrite Hn.
  - apply round_raise with (e := APIException (r_status r) (r_text r)).
    rewrite (login_sent v [] self w _ self r rest eq_refl Hb Hn).
    cbv zeta. rewrite handle_non_2xx_other.
    + reflexivity.
    + now apply status_non_2xx.
    + cbn. discriminate.
  - apply round_raise with (e := ConnectionError).
    rewrite (login_lost v [] self w _ self eq_refl Hb)
      by (right; now exists rest).
    now rewrite Hn.
Qed.

(** X8.  While the operation keeps failing a background task never sleeps:
    on a client without default options whose every answer is a failure
    (refused, or lost), the first [n] rounds of either task are [n] calls in
    a row and nothing else, and the client is as it was. *)
Theorem failing_task_never_sleeps :
  forall v n self script,
    _requests_params self = None ->
    Forall failing script ->
    _background_refresh_token_task v n self (fresh_world script)
    = (self, {| events := repeat (ECall (refresh_call self)) n;
                network := skipn n script |})
    /\
    _background_relogin_task v n self (fresh_world script)
    = (self, {| events := repeat (ECall (login_call self)) n;
                network := skipn n script |}).
Proof.
  intros v n self script Hd Hall. split.
  - unfold _background_refresh_token_task.
    rewrite (rounds_all_failing _ _ (refresh_call self) self
               (fun w => refresh_round_step v self w Hd) n
               (fresh_world script) Hall).
    reflexivity.
  - unfold _background_relogin_task.
    rewrite (rounds_all_failing _ _ (login_call self) self
               (fun w => login_round_step v self w Hd) n
               (fresh_world script) Hall).
    reflexivity.
Qed.

Lemma failing_task_never_sleeps_witness :
  _background_refresh_token_task Blocking 4 sample_client
    (fresh_world [Some server_error; None])
  = (sample_client,
     {| events := repeat (ECall (refresh_call sample_client)) 4;
        network := [] |})
  /\
  _background_relogin_task Blocking 4 sample_client
    (fresh_world [Some server_error; None])
  = (sample_client,
     {| events := repeat (ECall (login_call sample_client)) 4;
        network := [] |}).
Proof.
  apply (failing_task_never_sleeps Blocking 4 sample_client
           [Some server_error; None]).
  - reflexivity.
  - repeat constructor; unfold non_2xx; simpl; lia.
Defined.

(** ** What the builder does to the client and to the body *)

Lemma get_del_same : forall d k, Dict.get (Dict.del d k) k = None.
Proof.
  induction d as [|[k0 v0] d IH]; intros k; simpl; [reflexivity|].
  destruct (String.eqb k0 k) eqn:E; simpl; [apply IH|].
  rewrite E. apply IH.
Qed.

Lemma wf_set : forall d k v, wf_dict d = true -> wf_dict (Dict.set d k v) = true.
Proof.
  induction d as [|[k0 v0] d IH]; intros k v H; simpl in *; [reflexivity|].
  apply andb_prop in H. destruct H as [Hk Hd].
  destruct (String.eqb k0 k) eqn:E; simpl.
  - apply String.eqb_eq in E. subst k0. now rewrite Hk, Hd.
  - rewrite mem_set_other
      by (intro; subst; now rewrite String.eqb_refl in E).
    rewrite Hk. now apply IH.
Qed.

Lemma builder_no_data : forall self method signed kwargs,
  Dict.mem "data" (configured self) = false ->
  Dict.mem "data" kwargs = false ->
  _get_request_kwargs self method signed kwargs =
  match signed with
  | VBool true =>
      match sign self (with_defaults self kwargs) with
      | Raise e => (Raise e, self)
      | Ok kwargs' =>
          (Ok kwargs',
           store self "headers"
             match Dict.get kwargs' "headers" with
             | Some h => h
             | None => VNone
             end)
      end
  | _ => (Ok (with_defaults self kwargs), self)
  end.
Proof.
  intros self method signed kwargs Hd Hk.
  unfold _get_request_kwargs. rewrite defaults_step.
  fold (with_defaults self kwargs).
  assert (Hget : Dict.get (with_defaults self kwargs) "data" = None).
  { rewrite with_defaults_get_absent by (assumption || discriminate).
    unfold Dict.mem in Hk. now destruct (Dict.get kwargs "data"). }
  unfold merge_per_call. rewrite Hget. cbn [m_data m_kwargs m_nested].
  rewrite store_absent by assumption.
  destruct signed as [|[|]| | | |]; reflexivity.
Qed.

(** X9.  A client whose default options hold neither ["data"] nor
    ["headers"] comes out of the builder as it went in, whatever the builder
    returns or raises. *)
Theorem builder_leaves_client :
  forall self method signed kwargs,
    Dict.mem "data" (configured self) = false ->
    Dict.mem "headers" (configured self) = false ->
    snd (_get_request_kwargs self method signed kwargs) = self.
Proof.
  intros self method signed kwargs Hd Hh.
  unfold _get_request_kwargs.
  destruct (merge_per_call _) as [m|e]; [|reflexivity].
  rewrite store_absent by assumption.
  destruct signed as [|[|]| | | |]; try reflexivity.
  destruct (sign self (m_kwargs m)) as [kw|e]; [|reflexivity].
  cbn [snd]. unfold store_headers.
  destruct (m_nested m) as [r|]; [|now apply store_absent].
  destruct (Dict.mem "headers" r); [|now apply store_absent].
  destruct (m_data m) as [| | | | |dd]; try reflexivity.
  destruct (Dict.mem "requests_params" dd); [|reflexivity].
  now apply store_absent.
Qed.

Lemma builder_leaves_client_witness :
  snd (_get_request_kwargs (client_with [("verify", VBool false)]) GET
         (VBool true) [("data", VDict [("q", VStr "x")])])
  = client_with [("verify", VBool false)].
Proof.
  apply (builder_leaves_client (client_with [("verify", VBool false)]) GET
           (VBool true) [("data", VDict [("q", VStr "x")])]);
    reflexivity.
Defined.

(** X10.  Default headers take in the bearer token.  On a client configured
    with default [headers], a signed request writes ["Authorization"] into
    that very mapping, so a request that is not signed and is built
    afterwards carries the token as well. *)
Theorem default_headers_keep_token :
  forall self d h method kwargs method' kwargs',
    _requests_params self = Some d ->
    wf_dict d = true ->
    Dict.get d "headers" = Some (VDict h) ->
    Dict.mem "data" d = false ->
    Dict.mem "data" kwargs = false ->
    Dict.mem "data" kwargs' = false ->
    exists signed_options self1 options h',
      _get_request_kwargs self method (VBool true) kwargs
        = (Ok signed_options, self1) /\
      _get_request_kwargs self1 method' (VBool false) kwargs'
        = (Ok options, self1) /\
      Dict.get options "headers" = Some (VDict h') /\
      Dict.get h' "Authorization" = Some (bearer self).
Proof.
  intros self d h method kwargs method' kwargs' Hp Hwf Hh Hd Hk Hk'.
  assert (Hc : configured self = d) by (unfold configured; now rewrite Hp).
  assert (Hne : truthy (VDict d) = true) by (destruct d; [discriminate|reflexivity]).
  set (h' := Dict.set h "Authorization" (bearer self)).
  set (self1 := set_requests_params self
                  (Some (Dict.set d "headers" (VDict h')))).
  assert (Hc1 : configured self1 = Dict.set d "headers" (VDict h'))
    by reflexivity.
  exists (Dict.set (with_defaults self kwargs) "headers" (VDict h')),
         self1, (with_defaults self1 kwargs'), h'.
  split; [|split; [|split]].
  - rewrite builder_no_data by (rewrite ?Hc; assumption).
    unfold sign.
    rewrite with_defaults_get by (rewrite Hc; assumption).
    rewrite Hc, Hh. fold (bearer self). fold h'.
    rewrite get_set_same.
    unfold store, owns. rewrite Hp, Hne.
    unfold Dict.mem. rewrite Hh. reflexivity.
  - apply builder_unsigned_no_data; [|assumption].
    rewrite Hc1. rewrite mem_set_other by discriminate. assumption.
  - rewrite with_defaults_get by (rewrite Hc1; now apply wf_set).
    rewrite Hc1. now rewrite get_set_same.
  - apply get_set_same.
Qed.

Lemma default_headers_keep_token_witness :
  exists signed_options self1 options h',
    _get_request_kwargs
      (client_with [("headers", VDict [("Accept-Language", VStr "fa")])])
      POST (VBool true) []
      = (Ok signed_options, self1) /\
    _get_request_kwargs self1 GET (VBool false) [] = (Ok options, self1) /\
    Dict.get options "headers" = Some (VDict h') /\
    Dict.get h' "Authorization" = Some (VStr "Bearer tok").
Proof.
  apply (default_headers_keep_token
           (client_with [("headers", VDict [("Accept-Language", VStr "fa")])])
           [("headers", VDict [("Accept-Language", VStr "fa")])]
           [("Accept-Language", VStr "fa")] POST [] GET []);
    reflexivity.
Defined.

Lemma mem_del_same : forall d k, Dict.mem k (Dict.del d k) = false.
Proof. intros. unfold Dict.mem. now rewrite get_del_same. Qed.

Lemma merge_data : forall kwargs m b,
  merge_per_call kwargs = Ok m ->
  Dict.get (m_kwargs m) "data" = Some (VDict b) ->
  Dict.mem "requests_params" b = false.
Proof.
  intros kwargs m b H Hb. unfold merge_per_call in H.
  destruct (Dict.get kwargs "data") as [[| | | | |dd]|] eqn:Ed;
    try (injection H as <-; cbn [m_kwargs] in Hb; congruence).
  destruct (truthy (VDict dd)) eqn:Et.
  - destruct (Dict.get dd "requests_params") as [[| | | | |r]|] eqn:Er;
      try discriminate.
    + destruct (Dict.get r "data") as [[| | | | |x]|]; try discriminate.
      * destruct (Dict.mem "requests_params" x); [|discriminate].
        injection H as <-. cbn [m_kwargs] in Hb.
        rewrite get_set_same in Hb. injection Hb as <-. apply mem_del_same.
      * injection H as <-. cbn [m_kwargs] in Hb.
        rewrite get_set_same in Hb. injection Hb as <-. apply mem_del_same.
    + injection H as <-. cbn [m_kwargs] in Hb.
      rewrite Ed in Hb. injection Hb as <-.
      unfold Dict.mem. now rewrite Er.
  - injection H as <-. cbn [m_kwargs] in Hb.
    rewrite Ed in Hb. injection Hb as <-. now destruct dd.
Qed.

Lemma body_data : forall method data kwargs kwargs' b,
  body_to_query method data kwargs = Ok kwargs' ->
  Dict.get kwargs' "data" = Some b ->
  Dict.get kwargs "data" = Some b.
Proof.
  intros method data kwargs kwargs' b H Hb. unfold body_to_query in H.
  destruct (truthy data && String.eqb (method_value method) "get")%bool.
  - destruct (getitem_str (VDict kwargs) "data") as [body|]; [|discriminate].
    cbn [rbind] in H.
    destruct (py_iter body) as [items|]; [|discriminate].
    cbn [rbind] in H.
    destruct (mapM query_pair items) as [pairs|]; [|discriminate].
    cbn [rbind] in H. injection H as <-.
    rewrite get_del_same in Hb. discriminate.
  - now injection H as <-.
Qed.

(** X11.  The builder never passes the per-call [requests_params] on: a
    dictionary it leaves under ["data"] has no such key. *)
Theorem body_without_requests_params :
  forall self method signed kwargs kwargs' self' b,
    _get_request_kwargs self method signed kwargs = (Ok kwargs', self') ->
    Dict.get kwargs' "data" = Some (VDict b) ->
    Dict.mem "requests_params" b = false.
Proof.
  intros self method signed kwargs kwargs' self' b Hb Hd.
  apply builder_steps in Hb.
  destruct Hb as [m [Hm [[_ [kw [Hsign Hq]]] | [_ Hq]]]].
  - apply (body_data _ _ _ _ _ Hq) in Hd.
    rewrite (sign_get _ _ _ "data" Hsign) in Hd by discriminate.
    now apply (merge_data _ m b Hm).
  - apply (body_data _ _ _ _ _ Hq) in Hd.
    now apply (merge_data _ m b Hm).
Qed.

Lemma body_without_requests_params_witness :
  Dict.mem "requests_params" [("symbol", VStr "BTC_IRT")] = false.
Proof.
  apply (body_without_requests_params sample_client POST (VBool false)
           [("data", VDict [("symbol", VStr "BTC_IRT");
                            ("requests_params",
                             VDict [("timeout", VInt 3)])])]
           [("data", VDict [("symbol", VStr "BTC_IRT")]); ("timeout", VInt 3)]
           sample_client [("symbol", VStr "BTC_IRT")]);
    reflexivity.
Defined.

(** ** Endpoint methods *)

Lemma verb_events : forall v method path signed kwargs self w kwargs' self',
  plain_options kwargs = true ->
  _get_request_kwargs self method (signed_of signed) kwargs
    = (Ok kwargs', self') ->
  exists result w',
    _verb v method path signed None kwargs self w = (result, self', w') /\
    events w' = (events w ++ [ECall (call_of method path kwargs')])%list.
Proof.
  intros v method path signed kwargs self w kwargs' self' Hp Hb.
  rewrite verb_plain by assumption. rewrite Hb.
  unfold session_call.
  destruct (network w) as [|[r|] rest];
    do 2 eexists; (split; [reflexivity|reflexivity]).
Qed.

Lemma builder_get_local : forall self method signed kwargs kwargs' self' k,
  _get_request_kwargs self method signed kwargs = (Ok kwargs', self') ->
  Dict.mem "data" kwargs = false ->
  Dict.mem "data" (configured self) = false ->
  Dict.mem k (configured self) = false ->
  k <> "timeout" -> k <> "headers" ->
  Dict.get kwargs' k = Dict.get kwargs k.
Proof.
  intros self method signed kwargs kwargs' self' k H Hk Hd Hc Ht Hh.
  rewrite builder_no_data in H by assumption.
  assert (Hw : Dict.get (with_defaults self kwargs) k = Dict.get kwargs k)
    by now apply with_defaults_get_absent.
  destruct signed as [|[|]| | | |];
    try (injection H as <- _; exact Hw).
  destruct (sign self (with_defaults self kwargs)) as [kw|e] eqn:Es;
    [|discriminate].
  injection H as <- _. now rewrite (sign_get _ _ _ k Es Hh).
Qed.

Lemma is_none_false : forall x, is_none x = false <-> x <> VNone.
Proof. intros x. destruct x; simpl; split; congruence. Qed.

(** X12.  The order [create_order] posts to [odr/orders/] holds exactly
    the parameters that are not [None]. *)
Theorem create_order_drops_absent :
  forall v symbol type_ side base_amount quote_amount price stop_price
         oco_target_price identifier kwargs self w kwargs' self',
    plain_options kwargs = true ->
    Dict.mem "data" kwargs = false ->
    Dict.mem "data" (configured self) = false ->
    Dict.mem "json" (configured self) = false ->
    _get_request_kwargs self POST (VBool true)
      (Dict.set kwargs "json"
         (VDict (order_body symbol type_ side base_amount quote_amount price
                   stop_price oco_target_price identifier)))
      = (Ok kwargs', self') ->
    exists result w' body,
      create_order v symbol type_ side base_amount quote_amount price
        stop_price oco_target_price identifier kwargs self w
        = (result, self', w') /\
      events w' = (events w ++ [ECall (call_of POST ORDERS_URL kwargs')])%list /\
      Dict.get kwargs' "json" = Some (VDict body) /\
      forall k x,
        In (k, x) body <->
        In (k, x)
           [("symbol", symbol); ("type", type_); ("side", side);
            ("price", price); ("base_amount", base_amount);
            ("quote_amount", quote_amount); ("stop_price", stop_price);
            ("oco_target_price", oco_target_price);
            ("identifier", identifier)]
        /\ x <> VNone.
Proof.
  intros v symbol type_ side base_amount quote_amount price stop_price
         oco_target_price identifier kwargs self w kwargs' self'
         Hp Hk Hd Hj Hb.
  set (body := order_body symbol type_ side base_amount quote_amount price
                 stop_price oco_target_price identifier) in *.
  assert (Hp' : plain_options (Dict.set kwargs "json" (VDict body)) = true)
    by (apply plain_set; [assumption | simpl; intuition discriminate]).
  destruct (verb_events v POST ORDERS_URL (Some (VBool true)) _ self w
              kwargs' self' Hp' Hb) as [result [w' [E Hev]]].
  exists result, w', body. split; [exact E|]. split; [exact Hev|]. split.
  - rewrite (builder_get_local _ _ _ _ _ _ "json" Hb);
      try assumption; try discriminate.
    + apply get_set_same.
    + now rewrite mem_set_other by discriminate.
  - intros k x. unfold body, order_body. rewrite filter_In.
    cbn [snd]. rewrite negb_true_iff, is_none_false. reflexivity.
Qed.

Lemma create_order_drops_absent_witness :
  exists result w' body,
    create_order Blocking (VStr "BTC_IRT") (VStr "market") (VStr "buy")
      (VInt 2) VNone VNone VNone VNone VNone [] sample_client
      (fresh_world []) = (result, sample_client, w') /\
    events w' =
      [ECall (call_of POST ORDERS_URL
         [("json", VDict [("symbol", VStr "BTC_IRT"); ("type", VStr "market");
                          ("side", VStr "buy"); ("base_amount", VInt 2)]);
          ("timeout", VInt 10);
          ("headers", VDict [("Authorization", VStr "Bearer tok")])])] /\
    body = [("symbol", VStr "BTC_IRT"); ("type", VStr "market");
            ("side", VStr "buy"); ("base_amount", VInt 2)].
Proof.
  destruct (create_order_drops_absent Blocking (VStr "BTC_IRT")
              (VStr "market") (VStr "buy") (VInt 2) VNone VNone VNone VNone
              VNone [] sample_client (fresh_world [])
              [("json", VDict [("symbol", VStr "BTC_IRT");
                               ("type", VStr "market");
                               ("side", VStr "buy"); ("base_amount", VInt 2)]);
               ("timeout", VInt 10);
               ("headers", VDict [("Authorization", VStr "Bearer tok")])]
              sample_client eq_refl eq_refl eq_refl eq_refl eq_refl)
    as [result [w' [body [E [Hev [Hj _]]]]]].
  exists result, w', body. split; [exact E|]. split; [exact Hev|].
  cbn in Hj. now injection Hj as <-.
Defined.

(** X13.  [get_user_trades] lists orders: it is [get_user_orders] with
    the filters [symbol], [side], [offset] and [limit] and every other filter
    absent, request for request. *)
Theorem user_trades_is_user_orders :
  forall v symbol side offset limit kwargs self w,
    get_user_trades v symbol side offset limit kwargs self w =
    get_user_orders v symbol side VNone VNone VNone VNone VNone VNone VNone
      offset limit kwargs self w.
Proof.
  intros v symbol side offset limit kwargs self w.
  unfold get_user_trades, get_user_orders, stringified.
  cbn [filter snd is_none negb].
  destruct (is_none symbol), (is_none side), (is_none offset), (is_none limit);
    reflexivity.
Qed.

Lemma set_twice : forall d k a b,
  Dict.set (Dict.set d k a) k b = Dict.set d k b.
Proof.
  induction d as [|[k0 v0] d IH]; intros k a b; simpl.
  - now rewrite String.eqb_refl.
  - destruct (String.eqb k0 k) eqn:E; simpl.
    + now rewrite String.eqb_refl.
    + rewrite E. f_equal. apply IH.
Qed.

(** X14.  [get_wallets] makes its own [params]: what the caller passed
    under ["params"] plays no part in the request. *)
Theorem wallets_ignore_caller_params :
  forall v assets service offset limit kwargs p self w,
    get_wallets v assets service offset limit (Dict.set kwargs "params" p)
      self w
    = get_wallets v assets service offset limit kwargs self w.
Proof.
  intros. unfold get_wallets. now rewrite set_twice.
Qed.

(** X15.  [get_user_orders] adds its filters to the [params] the caller
    passed: in the request, every entry of the caller's [params] under a
    name that is not one of the filters given is as the caller wrote it. *)
Theorem user_orders_keep_caller_params :
  forall v symbol side state type_ identifier start end_ ids_in identifiers_in
         offset limit kwargs p self w kwargs' self',
    let filters :=
      stringified [("symbol", symbol); ("side", side); ("state", state);
                   ("type", type_); ("identifier", identifier);
                   ("start", start); ("end", end_); ("ids_in", ids_in);
                   ("identifiers_in", identifiers_in);
                   ("offset", offset); ("limit", limit)] in
    plain_options kwargs = true ->
    Dict.get kwargs "params" = Some (VDict p) ->
    Dict.mem "data" kwargs = false ->
    Dict.mem "data" (configured self) = false ->
    Dict.mem "params" (configured self) = false ->
    _get_request_kwargs self GET (VBool true)
      (Dict.set kwargs "params" (VDict (Dict.update p filters)))
      = (Ok kwargs', self') ->
    exists result w' q,
      get_user_orders v symbol side state type_ identifier start end_ ids_in
        identifiers_in offset limit kwargs self w = (result, self', w') /\
      events w' = (events w ++ [ECall (call_of GET ORDERS_URL kwargs')])%list /\
      Dict.get kwargs' "params" = Some (VDict q) /\
      forall k, Dict.mem k filters = false -> Dict.get q k = Dict.get p k.
Proof.
  intros v symbol side state type_ identifier start end_ ids_in identifiers_in
         offset limit kwargs p self w kwargs' self' filters
         Hp Hparams Hk Hd Hc Hb.
  assert (Hp' : plain_options
                  (Dict.set kwargs "params" (VDict (Dict.update p filters)))
                = true)
    by (apply plain_set; [assumption | simpl; intuition discriminate]).
  destruct (verb_events v GET ORDERS_URL (Some (VBool true)) _ self w
              kwargs' self' Hp' Hb) as [result [w' [E Hev]]].
  exists result, w', (Dict.update p filters).
  split; [|split; [exact Hev|split]].
  - unfold get_user_orders, bind, lift, add_params. rewrite Hparams.
    fold filters. exact E.
  - rewrite (builder_get_local _ _ _ _ _ _ "params" Hb);
      try assumption; try discriminate.
    + apply get_set_same.
    + now rewrite mem_set_other by discriminate.
  - intros k Hm. now apply get_update_absent.
Qed.

Lemma user_orders_keep_caller_params_witness :
  exists result w' q,
    get_user_orders Blocking (VStr "BTC_IRT") VNone VNone VNone VNone VNone
      VNone VNone VNone VNone (VInt 5)
      [("params", VDict [("page", VStr "2"); ("limit", VStr "50")])]
      sample_client (fresh_world []) = (result, sample_client, w') /\
    Dict.get q "page" = Some (VStr "2").
Proof.
  destruct (user_orders_keep_caller_params Blocking (VStr "BTC_IRT") VNone
              VNone VNone VNone VNone VNone VNone VNone VNone (VInt 5)
              [("params", VDict [("page", VStr "2"); ("limit", VStr "50")])]
              [("page", VStr "2"); ("limit", VStr "50")]
              sample_client (fresh_world [])
              [("params", VDict [("page", VStr "2"); ("limit", VStr "5");
                                 ("symbol", VStr "BTC_IRT")]);
               ("timeout", VInt 10);
               ("headers", VDict [("Authorization", VStr "Bearer tok")])]
              sample_client eq_refl eq_refl eq_refl eq_refl eq_refl eq_refl)
    as [result [w' [q [E [_ [_ Hq]]]]]].
  exists result, w', q. split; [exact E|].
  rewrite (Hq "page" eq_refl). reflexivity.
Defined.

(** X16.  A [params] that is not a dictionary stops [get_user_orders] and
    [get_user_trades] with [AttributeError] before anything is sent. *)
Theorem params_must_be_dictionary :
  forall v symbol side state type_ identifier start end_ ids_in identifiers_in
         offset limit kwargs p self w,
    Dict.get kwargs "params" = Some p ->
    (forall d, p <> VDict d) ->
    get_user_orders v symbol side state type_ identifier start end_ ids_in
      identifiers_in offset limit kwargs self w = (Raise AttributeError, self, w)
    /\
    get_user_trades v symbol side offset limit kwargs self w
      = (Raise AttributeError, self, w).
Proof.
  intros v symbol side state type_ identifier start end_ ids_in identifiers_in
         offset limit kwargs p self w Hp Hn.
  unfold get_user_orders, get_user_trades, bind, lift, add_params.
  rewrite Hp.
  destruct p as [| | | | |d]; try (split; reflexivity).
  now destruct (Hn d).
Qed.

Lemma params_must_be_dictionary_witness :
  get_user_orders NonBlocking VNone VNone VNone VNone VNone VNone VNone VNone
    VNone VNone VNone [("params", VNone)] sample_client
    (fresh_world [Some new_access])
  = (Raise AttributeError, sample_client, fresh_world [Some new_access])
  /\
  get_user_trades NonBlocking VNone VNone VNone VNone [("params", VNone)]
    sample_client (fresh_world [Some new_access])
  = (Raise AttributeError, sample_client, fresh_world [Some new_access]).
Proof.
  apply (params_must_be_dictionary NonBlocking VNone VNone VNone VNone VNone
           VNone VNone VNone VNone VNone VNone [("params", VNone)] VNone
           sample_client (fresh_world [Some new_access])).
  - reflexivity.
  - intros d. discriminate.
Defined.

(** X17.  A signed endpoint cannot be called with a [signed] keyword:
    [cancel_order], [cancel_order_bulk], [create_order] and [get_wallets]
    pass [signed=True] themselves, so the call raises [TypeError] and nothing
    is sent. *)
Theorem signed_keyword_refused :
  forall v kwargs self w,
    Dict.mem "signed" kwargs = true ->
    (forall order_id,
       cancel_order v order_id kwargs self w = (Raise TypeError, self, w)) /\
    (forall ids identifiers,
       cancel_order_bulk v ids identifiers kwargs self w
       = (Raise TypeError, self, w)) /\
    (forall symbol type_ side base_amount quote_amount price stop_price
            oco_target_price identifier,
       create_order v symbol type_ side base_amount quote_amount price
         stop_price oco_target_price identifier kwargs self w
       = (Raise TypeError, self, w)) /\
    (forall assets service offset limit,
       get_wallets v assets service offset limit kwargs self w
       = (Raise TypeError, self, w)).
Proof.
  intros v kwargs self w Hs.
  assert (H : forall method path s version kw,
             Dict.mem "signed" kw = true ->
             _verb v method path (Some s) version kw self w
             = (Raise TypeError, self, w)).
  { intros method path s version kw Hm.
    unfold _verb, bind, lift.
    destruct (no_clash ["self"; "path"] kw) as [[]|e] eqn:E.
    - unfold keyword, Dict.mem in *.
      destruct (Dict.get kw "signed"); [reflexivity|discriminate].
    - unfold no_clash in E. destruct (existsb _ _); [|discriminate].
      now injection E as <-. }
  repeat split; intros.
  - unfold cancel_order, bind, _delete. now rewrite H.
  - unfold cancel_order_bulk, _delete.
    apply H. now rewrite mem_set_other by discriminate.
  - unfold create_order, _post.
    apply H. now rewrite mem_set_other by discriminate.
  - unfold get_wallets, _get.
    apply H. now rewrite mem_set_other by discriminate.
Qed.

Lemma signed_keyword_refused_witness :
  cancel_order Blocking "42" [("signed", VBool false)] sample_client
    (fresh_world [Some no_content])
  = (Raise TypeError, sample_client, fresh_world [Some no_content]).
Proof.
  destruct (signed_keyword_refused Blocking [("signed", VBool false)]
              sample_client (fresh_world [Some no_content]) eq_refl)
    as [H _].
  apply H.
Defined.

(** ** Construction *)

(** X18.  Without an API key (none given, none in the environment)
    construction sends nothing, whatever the secret; the background tasks
    the flags ask for are started all the same. *)
Theorem construction_without_key :
  forall v environ key secret access refresh defaults relogin relogin_interval
         refresh_task refresh_interval w,
    truthy key = false ->
    environ_get environ "BITPIN_API_KEY" = VNone ->
    let self :=
      __init__ environ key secret access refresh defaults relogin
        relogin_interval refresh_task refresh_interval in
    create v self w =
    (Ok (self,
         ((if relogin then [Relogin] else [])
          ++ (if refresh_task then [RefreshToken] else []))%list), w).
Proof.
  intros v environ key secret access refresh defaults relogin relogin_interval
         refresh_task refresh_interval w Hk He self.
  unfold create, _handle_login, bind, get_self, ret.
  assert (Hkey : truthy (api_key self) = false).
  { subst self. cbn [api_key __init__]. unfold py_or. rewrite Hk, He.
    reflexivity. }
  rewrite Hkey. reflexivity.
Qed.

Lemma construction_without_key_witness :
  create Blocking
    (__init__ [("BITPIN_API_SECRET", "s")] VNone VNone VNone VNone None
       true 518400 false 780)
    (fresh_world [Some new_access])
  = (Ok (__init__ [("BITPIN_API_SECRET", "s")] VNone VNone VNone VNone None
           true 518400 false 780, [Relogin]),
     fresh_world [Some new_access]).
Proof.
  apply (construction_without_key Blocking [("BITPIN_API_SECRET", "s")]
           VNone VNone VNone VNone None true 518400 false 780
           (fresh_world [Some new_access]));
    reflexivity.
Defined.

(** X19.  With a key and a secret construction logs in first, and a login
    that raises ends it: the exception is the constructor's, and no
    background task is started. *)
Theorem construction_login_failure :
  forall v self w e self' w',
    truthy (api_key self) = true ->
    truthy (api_secret self) = true ->
    login v [] self w = (Raise e, self', w') ->
    create v self w = (Raise e, w').
Proof.
  intros v self w e self' w' Hk Hs Hl.
  unfold create, _handle_login, bind, get_self.
  rewrite Hk, Hs. cbn [andb]. now rewrite Hl.
Qed.

Lemma construction_login_failure_witness :
  create NonBlocking sample_client (fresh_world [Some server_error])
  = (Raise (APIException 500 "Internal Server Error"),
     answered (fresh_world [Some server_error]) (login_call sample_client) []).
Proof.
  apply (construction_login_failure NonBlocking sample_client
           (fresh_world [Some server_error])
           (APIException 500 "Internal Server Error") sample_client);
    reflexivity.
Defined.

(** ** Public endpoints *)

Lemma public_get : forall v path version self w,
  _requests_params self = None ->
  exists result w',
    _verb v GET path None version [] self w = (result, self, w') /\
    events w' =
      (events w ++
       [ECall {| c_method := GET;
                 c_uri := _create_api_uri path
                            match version with
                            | Some ver => ver
                            | None => VStr PUBLIC_API_VERSION_1
                            end;
                 c_kwargs := [("timeout", VInt 10)] |}])%list.
Proof.
  intros v path version self w Hd.
  assert (Hb : _get_request_kwargs self GET (VBool false) []
               = (Ok [("timeout", VInt 10)], self)).
  { rewrite builder_unsigned_no_data;
      try (unfold configured; rewrite Hd); try reflexivity.
    unfold with_defaults, configured. now rewrite Hd. }
  unfold _verb, _request_api, _request, bind, lift.
  destruct version as [ver|]; cbn [no_clash existsb keyword Dict.get Dict.del
                                     filter];
    rewrite Hb; unfold session_call;
    destruct (network w) as [|[r|] rest];
    do 2 eexists; (split; reflexivity).
Qed.

(** X20.  The public endpoints send no token: on a client without default
    options, [get_currencies_info], [get_markets_info], [get_tickers_info],
    [get_orderbook] and [get_recent_trades] each make one GET under [v1]
    whose only option is the fixed timeout, whatever tokens the client
    holds. *)
Theorem public_endpoints_send_no_token :
  forall v symbol self w,
    _requests_params self = None ->
    let sent (m : M pyval) (path : string) :=
      exists result w',
        m self w = (result, self, w') /\
        events w' =
          (events w ++ [ECall (call_of GET path [("timeout", VInt 10)])])%list
    in
    sent (get_currencies_info v) CURRENCIES_LIST_URL /\
    sent (get_markets_info v) MARKETS_LIST_URL /\
    sent (get_tickers_info v) TICKERS_LIST_URL /\
    sent (get_orderbook v symbol) ("mth/orderbook/" ++ symbol ++ "/") /\
    sent (get_recent_trades v symbol) ("mth/matches/" ++ symbol ++ "/").
Proof.
  intros v symbol self w Hd sent. subst sent. cbv beta.
  repeat split.
  - exact (public_get v CURRENCIES_LIST_URL None self w Hd).
  - exact (public_get v MARKETS_LIST_URL None self w Hd).
  - exact (public_get v TICKERS_LIST_URL None self w Hd).
  - exact (public_get v (ORDERBOOK_URL symbol)
             (Some (VStr PUBLIC_API_VERSION_1)) self w Hd).
  - exact (public_get v (RECENT_TRADES_URL symbol) None self w Hd).
Qed.

Lemma public_endpoints_send_no_token_witness :
  exists result w',
    get_orderbook Blocking "BTC_IRT" sample_client (fresh_world [])
      = (result, sample_client, w') /\
    events w' =
      [ECall (call_of GET "mth/orderbook/BTC_IRT/" [("timeout", VInt 10)])].
Proof.
  destruct (public_endpoints_send_no_token Blocking "BTC_IRT" sample_client
              (fresh_world []) eq_refl) as [_ [_ [_ [H _]]]].
  exact H.
Defined.

(** ** [_pick] *)

Lemma pick_first_find : forall items key value,
  (forall item, In item items -> exists field, getitem_str item key = Ok field) ->
  pick_first items key value =
  Ok (find (fun item =>
              match getitem_str item key with
              | Ok field => py_eq field value
              | Raise _ => false
              end) items).
Proof.
  induction items as [|item items IH]; intros key value H; [reflexivity|].
  cbn [pick_first find].
  destruct (H item (or_introl eq_refl)) as [field Hf]. rewrite Hf.
  cbn [rbind]. destruct (py_eq field value); [reflexivity|].
  apply IH. intros x Hx. apply H. now right.
Qed.

(** X21.  [_pick] puts under the result key the first item of the list
    found there whose field equals the value, and returns the response; with
    no such item, or no list under the result key, it raises [ValueError]. *)
Theorem pick_takes_first_match :
  forall response key value result_key items,
    (Dict.get response result_key = Some (VList items) \/
     (Dict.get response result_key = None /\ items = [])) ->
    (forall item, In item items -> exists field, getitem_str item key = Ok field) ->
    _pick response key value result_key =
    match find (fun item =>
                  match getitem_str item key with
                  | Ok field => py_eq field value
                  | Raise _ => false
                  end) items with
    | Some item => Ok (Dict.set response result_key item)
    | None =>
        Raise (ValueError (key ++ " " ++ str value ++ " not found in "
                           ++ str (VDict response)))
    end.
Proof.
  intros response key value result_key items Hr Hi.
  unfold _pick.
  assert (E : py_iter match Dict.get response result_key with
                      | Some l => l
                      | None => VList []
                      end = Ok items).
  { destruct Hr as [Hr | [Hr ->]]; now rewrite Hr. }
  rewrite E. cbn [rbind].
  rewrite pick_first_find by assumption. cbn [rbind].
  destruct (find _ items); reflexivity.
Qed.

Lemma pick_takes_first_match_witness :
  _pick [("count", VInt 2);
         ("results", VList [VDict [("id", VInt 1); ("symbol", VStr "BTC_IRT")];
                            VDict [("id", VInt 2); ("symbol", VStr "ETH_IRT")];
                            VDict [("id", VInt 3); ("symbol", VStr "ETH_IRT")]])]
    "symbol" (VStr "ETH_IRT") "results"
  = Ok [("count", VInt 2);
        ("results", VDict [("id", VInt 2); ("symbol", VStr "ETH_IRT")])].
Proof.
  apply (pick_takes_first_match
           [("count", VInt 2);
            ("results",
             VList [VDict [("id", VInt 1); ("symbol", VStr "BTC_IRT")];
                    VDict [("id", VInt 2); ("symbol", VStr "ETH_IRT")];
                    VDict [("id", VInt 3); ("symbol", VStr "ETH_IRT")]])]
           "symbol" (VStr "ETH_IRT") "results"
           [VDict [("id", VInt 1); ("symbol", VStr "BTC_IRT")];
            VDict [("id", VInt 2); ("symbol", VStr "ETH_IRT")];
            VDict [("id", VInt 3); ("symbol", VStr "ETH_IRT")]]).
  - left. reflexivity.
  - intros item [<-|[<-|[<-|[]]]]; eexists; reflexivity.
Defined.

(** X22.  [_pick] reads the items in order and stops at the first one it
    cannot read: when the items before it do not match and reading its field
    raises, that exception is the outcome, whatever comes after. *)
Theorem pick_stops_at_unreadable_item :
  forall response key value result_key before item after e,
    Dict.get response result_key = Some (VList (before ++ item :: after)) ->
    (forall x, In x before ->
       exists field, getitem_str x key = Ok field /\ py_eq field value = false) ->
    getitem_str item key = Raise e ->
    _pick response key value result_key = Raise e.
Proof.
  intros response key value result_key before item after e Hr Hb Hi.
  unfold _pick. rewrite Hr. cbn [py_iter rbind].
  assert (E : pick_first (before ++ item :: after) key value = Raise e).
  { clear Hr. induction before as [|x before IH]; cbn [app pick_first].
    - now rewrite Hi.
    - destruct (Hb x (or_introl eq_refl)) as [field [Hf Hne]].
      rewrite Hf. cbn [rbind]. rewrite Hne.
      apply IH. intros y Hy. apply Hb. now right. }
  now rewrite E.
Qed.

Lemma pick_stops_at_unreadable_item_witness :
  _pick [("results", VList [VDict [("symbol", VStr "BTC_IRT")];
                            VDict [("id", VInt 2)];
                            VDict [("symbol", VStr "ETH_IRT")]])]
    "symbol" (VStr "ETH_IRT") "results"
  = Raise (KeyError "symbol").
Proof.
  apply (pick_stops_at_unreadable_item
           [("results", VList [VDict [("symbol", VStr "BTC_IRT")];
                               VDict [("id", VInt 2)];
                               VDict [("symbol", VStr "ETH_IRT")]])]
           "symbol" (VStr "ETH_IRT") "results"
           [VDict [("symbol", VStr "BTC_IRT")]]
           (VDict [("id", VInt 2)])
           [VDict [("symbol", VStr "ETH_IRT")]]
           (KeyError "symbol")).
  - reflexivity.
  - intros x [<-|[]]. eexists. split; reflexivity.
  - reflexivity.
Defined.

(** ** More on the builder and on bulk orders *)

Lemma merge_data_falsy : forall kwargs m,
  merge_per_call kwargs = Ok m ->
  truthy (m_data m) = false ->
  match Dict.get (m_kwargs m) "data" with
  | Some body => truthy body = false
  | None => True
  end.
Proof.
  intros kwargs m H Ht. unfold merge_per_call in H.
  destruct (Dict.get kwargs "data") as [[| | | | |dd]|] eqn:Ed;
    try (injection H as <-; cbn [m_kwargs m_data] in *; rewrite Ed;
         first [exact Ht | exact I]).
  destruct (truthy (VDict dd)) eqn:Et.
  - destruct (Dict.get dd "requests_params") as [[| | | | |r]|] eqn:Er;
      try discriminate.
    + destruct (Dict.get r "data") as [[| | | | |x]|]; try discriminate.
      * destruct (Dict.mem "requests_params" x); [|discriminate].
        injection H as <-. cbn [m_data] in Ht.
        destruct dd as [|[k0 v0] dd]; [discriminate|].
        simpl in Ht. destruct (String.eqb k0 "requests_params"); discriminate.
      * injection H as <-. cbn [m_kwargs m_data] in *.
        now rewrite get_set_same.
    + injection H as <-. cbn [m_kwargs m_data] in *. now rewrite Ed.
  - injection H as <-. cbn [m_kwargs m_data] in *. now rewrite Ed.
Qed.

(** X23.  A GET never goes out with a body: the options the builder
    finalizes for one hold no ["data"], or an empty one. *)
Theorem get_carries_no_body :
  forall self signed kwargs kwargs' self',
    _get_request_kwargs self GET signed kwargs = (Ok kwargs', self') ->
    match Dict.get kwargs' "data" with
    | Some body => truthy body = false
    | None => True
    end.
Proof.
  intros self signed kwargs kwargs' self' Hb.
  apply builder_steps in Hb.
  assert (Hq : forall data kw,
             body_to_query GET data kw = Ok kwargs' ->
             (truthy data = false ->
              match Dict.get kw "data" with
              | Some body => truthy body = false
              | None => True
              end) ->
             match Dict.get kwargs' "data" with
             | Some body => truthy body = false
             | None => True
             end).
  { intros data kw H Hf. unfold body_to_query in H.
    destruct (truthy data); cbn [andb method_value String.eqb Ascii.eqb
                                    Bool.eqb] in H.
    - destruct (getitem_str (VDict kw) "data") as [body|]; [|discriminate].
      cbn [rbind] in H.
      destruct (py_iter body) as [items|]; [|discriminate].
      cbn [rbind] in H.
      destruct (mapM query_pair items) as [pairs|]; [|discriminate].
      cbn [rbind] in H. injection H as <-. now rewrite get_del_same.
    - injection H as <-. now apply Hf. }
  destruct Hb as [m [Hm [[_ [kw [Hsign H]]] | [_ H]]]].
  - apply (Hq _ _ H). intros Ht.
    rewrite (sign_get _ _ _ "data" Hsign) by discriminate.
    now apply (merge_data_falsy _ m Hm).
  - apply (Hq _ _ H). now apply (merge_data_falsy _ m Hm).
Qed.

Lemma get_carries_no_body_witness :
  match Dict.get [("timeout", VInt 10); ("params", VStr "s=y")] "data" with
  | Some body => truthy body = false
  | None => True
  end.
Proof.
  apply (get_carries_no_body sample_client (VBool false)
           [("data", VDict [("symbol", VStr "BTC_IRT")])]
           [("timeout", VInt 10); ("params", VStr "s=y")] sample_client).
  reflexivity.
Defined.

Lemma same_market : forall (orders : list OrderDict) m,
  Forall (fun o => symbol o = m) orders ->
  existsb (fun order => negb (String.eqb (symbol order) m)) orders = false.
Proof.
  intros orders m H. induction H as [|o orders Ho _ IH]; [reflexivity|].
  cbn [existsb]. rewrite Ho, String.eqb_refl. exact IH.
Qed.

(** X24.  What a valid bulk order posts: for one to ten orders on one
    market the body has three fields, all of them text: [orders], the list as
    [str] prints it, [max_orders], ["10"], and [market], the symbol. *)
Theorem bulk_order_body :
  forall v o orders kwargs self w kwargs' self',
    let body :=
      VDict [("orders",
              VStr (repr (VList (map (fun x => VDict (as_dict x))
                                     (o :: orders)))));
             ("max_orders", VStr "10");
             ("market", VStr (symbol o))] in
    (List.length (o :: orders) <= 10)%nat ->
    Forall (fun x => symbol x = symbol o) orders ->
    plain_options kwargs = true ->
    Dict.mem "data" kwargs = false ->
    Dict.mem "data" (configured self) = false ->
    Dict.mem "json" (configured self) = false ->
    _get_request_kwargs self POST (VBool true) (Dict.set kwargs "json" body)
      = (Ok kwargs', self') ->
    exists result w',
      create_order_bulk v (o :: orders) kwargs self w = (result, self', w') /\
      events w'
        = (events w ++ [ECall (call_of POST BULK_ORDER_URL kwargs')])%list /\
      Dict.get kwargs' "json" = Some body.
Proof.
  intros v o orders kwargs self w kwargs' self' body
         Hlen Hall Hp Hk Hd Hj Hb.
  assert (Hp' : plain_options (Dict.set kwargs "json" body) = true)
    by (apply plain_set; [assumption | simpl; intuition discriminate]).
  destruct (verb_events v POST BULK_ORDER_URL (Some (VBool true)) _ self w
              kwargs' self' Hp' Hb) as [result [w' [E Hev]]].
  exists result, w'. split; [|split; [exact Hev|]].
  - unfold create_order_bulk.
    assert (Hl : Nat.ltb 10 (List.length (o :: orders)) = false)
      by (apply Nat.ltb_ge; exact Hlen).
    rewrite Hl.
    assert (Hm : existsb (fun order =>
                            negb (String.eqb (symbol order) (symbol o)))
                   (o :: orders) = false)
      by (apply same_market; constructor; [reflexivity|assumption]).
    rewrite Hm. exact E.
  - rewrite (builder_get_local _ _ _ _ _ _ "json" Hb);
      try assumption; try discriminate.
    + apply get_set_same.
    + now rewrite mem_set_other by discriminate.
Qed.

Lemma bulk_order_body_witness :
  exists result w',
    create_order_bulk Blocking
      [{| symbol := "BTC_IRT";
          as_dict := [("symbol", VStr "BTC_IRT"); ("side", VStr "buy")] |}]
      [] sample_client (fresh_world []) = (result, sample_client, w') /\
    events w' =
      [ECall (call_of POST BULK_ORDER_URL
         [("json",
           VDict [("orders", VStr "[{'symbol': 'BTC_IRT', 'side': 'buy'}]");
                  ("max_orders", VStr "10"); ("market", VStr "BTC_IRT")]);
          ("timeout", VInt 10);
          ("headers", VDict [("Authorization", VStr "Bearer tok")])])].
Proof.
  destruct (bulk_order_body Blocking
              {| symbol := "BTC_IRT";
                 as_dict := [("symbol", VStr "BTC_IRT"); ("side", VStr "buy")] |}
              [] [] sample_client (fresh_world [])
              [("json",
                VDict [("orders", VStr "[{'symbol': 'BTC_IRT', 'side': 'buy'}]");
                       ("max_orders", VStr "10"); ("market", VStr "BTC_IRT")]);
               ("timeout", VInt 10);
               ("headers", VDict [("Authorization", VStr "Bearer tok")])]
              sample_client)
    as [result [w' [E [Hev _]]]];
    try reflexivity; try constructor.
  - simpl. lia.
  - exists result, w'. split; assumption.
Defined.
